(** * DNS latency probe: a shallow embedding of [dns-delay-testing.py]

    The development follows the two source files of the repository:
    - [src/dns-delay-testing.py]: [test_port_connectivity],
      [test_dns_latency] and [main];
    - [src/unnamed/part_000]: the earlier variant of [test_dns_latency]
      (no host resolution, no port check) with the same [main].

    Python values are modelled as follows.  A [str] is a [string] holding
    the UTF-8 bytes of the text (all separators and keywords the program
    looks for are ASCII, so searching bytes and searching code points
    agree).  An [int] is a [Z].  A [float] is a rational [Q]: rounding is
    not modelled.  A raised exception is the [Raise] case of [Res]; only
    subclasses of [Exception] are considered.  Calls into the operating
    system and into the DNS library are answered by an oracle record
    [Env], one per attempt; everything the program does with the answers is
    computed. *)

From Stdlib Require Import ZArith NArith QArith List String Ascii Bool Lia Lqa.
From Stdlib Require Import Decimal DecimalString DecimalPos.
Import ListNotations.

Open Scope string_scope.
Open Scope Z_scope.

(** ** Python exceptions and results *)

Module Py.

(** The exception classes the program can tell apart: [except
    socket.gaierror] singles out [GaiError]; every class is caught by
    [except Exception].  [OtherException] carries the class name. *)
Inductive ExnClass : Type :=
| ValueError
| ZeroDivisionError
| IndexError
| GaiError
| OtherException (name : string).

Record Exn : Type := mkExn { exn_class : ExnClass; exn_msg : string }.

(** [type(e).__name__] *)
Definition type_name (c : ExnClass) : string :=
  match c with
  | ValueError => "ValueError"
  | ZeroDivisionError => "ZeroDivisionError"
  | IndexError => "IndexError"
  | GaiError => "gaierror"
  | OtherException name => name
  end.

(** [isinstance(e, socket.gaierror)] *)
Definition is_gaierror (e : Exn) : bool :=
  match exn_class e with GaiError => true | _ => false end.

Inductive Res (A : Type) : Type :=
| Ok (a : A)
| Raise (e : Exn).
Arguments Ok {A} a.
Arguments Raise {A} e.

Definition returns {A} (r : Res A) : bool :=
  match r with Ok _ => true | Raise _ => false end.

(** *** Strings *)

(** [needle in s] *)
Fixpoint str_in (needle s : string) : bool :=
  if prefix needle s then true
  else match s with
       | EmptyString => false
       | String _ rest => str_in needle rest
       end.

(** ASCII lower-casing.  [str.lower] also maps non-ASCII letters; of those
    only U+212A (to k) and U+0130 (to i followed by U+0307) produce ASCII
    letters, and neither can complete the words the program searches for,
    so the two membership tests of [test_dns_latency] are unaffected. *)
Definition lower_ascii (c : ascii) : ascii :=
  let n := nat_of_ascii c in
  if ((65 <=? n)%nat && (n <=? 90)%nat)%bool then ascii_of_nat (n + 32) else c.

Fixpoint lower (s : string) : string :=
  match s with
  | EmptyString => EmptyString
  | String c rest => String (lower_ascii c) (lower rest)
  end.

(** [s.split(':', 1)] when [':' in s]: the text before the first colon and
    the text after it; [None] when [s] has no colon. *)
Fixpoint split_colon (s : string) : option (string * string) :=
  match s with
  | EmptyString => None
  | String c rest =>
      if Ascii.eqb c ":" then Some (EmptyString, rest)
      else match split_colon rest with
           | Some (before, after) => Some (String c before, after)
           | None => None
           end
  end.

(** [str(n)] for an [int] *)
Definition str_of_Z (n : Z) : string := NilZero.string_of_int (Z.to_int n).

(** *** Text as code points

    A [str] is held as its UTF-8 bytes.  A byte that starts no well-formed
    sequence stands for itself: it is the lone surrogate U+DC00 + byte that
    the interpreter makes of it when the command line is decoded
    (surrogateescape). *)

Definition in_range (lo hi n : N) : bool := ((lo <=? n) && (n <=? hi))%N.

Definition in_ranges (table : list (N * N)) (n : N) : bool :=
  existsb (fun r => in_range (fst r) (snd r) n) table.

(** A continuation byte *)
Definition continues (n : N) : bool := in_range 0x80 0xBF n.

(** The code point at the head of the text [String b0 r0] and the text
    after it: the well-formed sequences are those of the Unicode standard
    (no overlong form, no surrogate, nothing above U+10FFFF). *)
Definition utf8_next (b0 : ascii) (r0 : string) : N * string :=
  let n0 := N_of_ascii b0 in
  let escaped := ((0xDC00 + n0)%N, r0) in
  if (n0 <? 0x80)%N then (n0, r0)
  else if in_range 0xC2 0xDF n0 then
    match r0 with
    | String b1 r1 =>
        let n1 := N_of_ascii b1 in
        if continues n1 then (((n0 - 0xC0) * 64 + (n1 - 0x80))%N, r1)
        else escaped
    | EmptyString => escaped
    end
  else if in_range 0xE0 0xEF n0 then
    match r0 with
    | String b1 (String b2 r2) =>
        let n1 := N_of_ascii b1 in
        let n2 := N_of_ascii b2 in
        if (in_range (if (n0 =? 0xE0)%N then 0xA0 else 0x80)
              (if (n0 =? 0xED)%N then 0x9F else 0xBF) n1
            && continues n2)%bool
        then (((n0 - 0xE0) * 4096 + (n1 - 0x80) * 64 + (n2 - 0x80))%N, r2)
        else escaped
    | _ => escaped
    end
  else if in_range 0xF0 0xF4 n0 then
    match r0 with
    | String b1 (String b2 (String b3 r3)) =>
        let n1 := N_of_ascii b1 in
        let n2 := N_of_ascii b2 in
        let n3 := N_of_ascii b3 in
        if (in_range (if (n0 =? 0xF0)%N then 0x90 else 0x80)
              (if (n0 =? 0xF4)%N then 0x8F else 0xBF) n1
            && continues n2 && continues n3)%bool
        then (((n0 - 0xF0) * 262144 + (n1 - 0x80) * 4096 + (n2 - 0x80) * 64
               + (n3 - 0x80))%N, r3)
        else escaped
    | _ => escaped
    end
  else escaped.

(** Every step takes at least one byte, so the length of the text is
    enough fuel. *)
Fixpoint decode_from (fuel : nat) (s : string) : list N :=
  match fuel, s with
  | S fuel', String b0 r0 =>
      let (c, rest) := utf8_next b0 r0 in c :: decode_from fuel' rest
  | _, _ => []
  end.

Definition utf8_decode (s : string) : list N := decode_from (String.length s) s.

Definition utf8_encode (c : N) : string :=
  let b (n : N) := ascii_of_N n in
  if (c <? 0x80)%N then String (b c) ""
  else if in_range 0xDC80 0xDCFF c then String (b (c - 0xDC00)%N) ""
  else if (c <? 0x800)%N then
    String (b (0xC0 + c / 64)%N) (String (b (0x80 + c mod 64)%N) "")
  else if (c <? 0x10000)%N then
    String (b (0xE0 + c / 4096)%N)
      (String (b (0x80 + (c / 64) mod 64)%N)
         (String (b (0x80 + c mod 64)%N) ""))
  else
    String (b (0xF0 + c / 262144)%N)
      (String (b (0x80 + (c / 4096) mod 64)%N)
         (String (b (0x80 + (c / 64) mod 64)%N)
            (String (b (0x80 + c mod 64)%N) ""))).

Definition utf8_encode_all (l : list N) : string :=
  String.concat "" (map utf8_encode l).

Definition is_ascii (s : string) : bool :=
  forallb (fun c => (N_of_ascii c <? 0x80)%N) (list_ascii_of_string s).

(** *** Tables of Unicode 14.0, the version of CPython 3.11 *)

(** The white space beyond ASCII ([str.isspace]), as ranges of code points *)
Definition space_ranges : list (N * N) :=
  [(133, 133); (160, 160); (5760, 5760); (8192, 8202); (8232, 8233);
   (8239, 8239); (8287, 8287); (12288, 12288)]%N.

(** The decimal digits beyond ASCII, as ranges of code points: every range
    starts at a digit zero and the digits follow in order. *)
Definition digit_ranges : list (N * N) :=
  [(1632, 1641); (1776, 1785); (1984, 1993); (2406, 2415); (2534, 2543);
   (2662, 2671); (2790, 2799); (2918, 2927); (3046, 3055); (3174, 3183);
   (3302, 3311); (3430, 3439); (3558, 3567); (3664, 3673); (3792, 3801);
   (3872, 3881); (4160, 4169); (4240, 4249); (6112, 6121); (6160, 6169);
   (6470, 6479); (6608, 6617); (6784, 6793); (6800, 6809); (6992, 7001);
   (7088, 7097); (7232, 7241); (7248, 7257); (42528, 42537); (43216, 43225);
   (43264, 43273); (43472, 43481); (43504, 43513); (43600, 43609);
   (44016, 44025); (65296, 65305); (66720, 66729); (68912, 68921);
   (69734, 69743); (69872, 69881); (69942, 69951); (70096, 70105);
   (70384, 70393); (70736, 70745); (70864, 70873); (71248, 71257);
   (71360, 71369); (71472, 71481); (71904, 71913); (72016, 72025);
   (72784, 72793); (73040, 73049); (73120, 73129); (92768, 92777);
   (92864, 92873); (93008, 93017); (120782, 120831); (123200, 123209);
   (123632, 123641); (125264, 125273); (130032, 130041)]%N.

(** The code points from U+0080 on that [repr] escapes (those for which
    [str.isprintable] is false) *)
Definition nonprintable_ranges : list (N * N) :=
  [(128, 160); (173, 173); (888, 889); (896, 899); (907, 907); (909, 909);
   (930, 930); (1328, 1328); (1367, 1368); (1419, 1420); (1424, 1424);
   (1480, 1487); (1515, 1518); (1525, 1541); (1564, 1564); (1757, 1757);
   (1806, 1807); (1867, 1868); (1970, 1983); (2043, 2044); (2094, 2095);
   (2111, 2111); (2140, 2141); (2143, 2143); (2155, 2159); (2191, 2199);
   (2274, 2274); (2436, 2436); (2445, 2446); (2449, 2450); (2473, 2473);
   (2481, 2481); (2483, 2485); (2490, 2491); (2501, 2502); (2505, 2506);
   (2511, 2518); (2520, 2523); (2526, 2526); (2532, 2533); (2559, 2560);
   (2564, 2564); (2571, 2574); (2577, 2578); (2601, 2601); (2609, 2609);
   (2612, 2612); (2615, 2615); (2618, 2619); (2621, 2621); (2627, 2630);
   (2633, 2634); (2638, 2640); (2642, 2648); (2653, 2653); (2655, 2661);
   (2679, 2688); (2692, 2692); (2702, 2702); (2706, 2706); (2729, 2729);
   (2737, 2737); (2740, 2740); (2746, 2747); (2758, 2758); (2762, 2762);
   (2766, 2767); (2769, 2783); (2788, 2789); (2802, 2808); (2816, 2816);
   (2820, 2820); (2829, 2830); (2833, 2834); (2857, 2857); (2865, 2865);
   (2868, 2868); (2874, 2875); (2885, 2886); (2889, 2890); (2894, 2900);
   (2904, 2907); (2910, 2910); (2916, 2917); (2936, 2945); (2948, 2948);
   (2955, 2957); (2961, 2961); (2966, 2968); (2971, 2971); (2973, 2973);
   (2976, 2978); (2981, 2983); (2987, 2989); (3002, 3005); (3011, 3013);
   (3017, 3017); (3022, 3023); (3025, 3030); (3032, 3045); (3067, 3071);
   (3085, 3085); (3089, 3089); (3113, 3113); (3130, 3131); (3141, 3141);
   (3145, 3145); (3150, 3156); (3159, 3159); (3163, 3164); (3166, 3167);
   (3172, 3173); (3184, 3190); (3213, 3213); (3217, 3217); (3241, 3241);
   (3252, 3252); (3258, 3259); (3269, 3269); (3273, 3273); (3278, 3284);
   (3287, 3292); (3295, 3295); (3300, 3301); (3312, 3312); (3315, 3327);
   (3341, 3341); (3345, 3345); (3397, 3397); (3401, 3401); (3408, 3411);
   (3428, 3429); (3456, 3456); (3460, 3460); (3479, 3481); (3506, 3506);
   (3516, 3516); (3518, 3519); (3527, 3529); (3531, 3534); (3541, 3541);
   (3543, 3543); (3552, 3557); (3568, 3569); (3573, 3584); (3643, 3646);
   (3676, 3712); (3715, 3715); (3717, 3717); (3723, 3723); (3748, 3748);
   (3750, 3750); (3774, 3775); (3781, 3781); (3783, 3783); (3790, 3791);
   (3802, 3803); (3808, 3839); (3912, 3912); (3949, 3952); (3992, 3992);
   (4029, 4029); (4045, 4045); (4059, 4095); (4294, 4294); (4296, 4300);
   (4302, 4303); (4681, 4681); (4686, 4687); (4695, 4695); (4697, 4697);
   (4702, 4703); (4745, 4745); (4750, 4751); (4785, 4785); (4790, 4791);
   (4799, 4799); (4801, 4801); (4806, 4807); (4823, 4823); (4881, 4881);
   (4886, 4887); (4955, 4956); (4989, 4991); (5018, 5023); (5110, 5111);
   (5118, 5119); (5760, 5760); (5789, 5791); (5881, 5887); (5910, 5918);
   (5943, 5951); (5972, 5983); (5997, 5997); (6001, 6001); (6004, 6015);
   (6110, 6111); (6122, 6127); (6138, 6143); (6158, 6158); (6170, 6175);
   (6265, 6271); (6315, 6319); (6390, 6399); (6431, 6431); (6444, 6447);
   (6460, 6463); (6465, 6467); (6510, 6511); (6517, 6527); (6572, 6575);
   (6602, 6607); (6619, 6621); (6684, 6685); (6751, 6751); (6781, 6782);
   (6794, 6799); (6810, 6815); (6830, 6831); (6863, 6911); (6989, 6991);
   (7039, 7039); (7156, 7163); (7224, 7226); (7242, 7244); (7305, 7311);
   (7355, 7356); (7368, 7375); (7419, 7423); (7958, 7959); (7966, 7967);
   (8006, 8007); (8014, 8015); (8024, 8024); (8026, 8026); (8028, 8028);
   (8030, 8030); (8062, 8063); (8117, 8117); (8133, 8133); (8148, 8149);
   (8156, 8156); (8176, 8177); (8181, 8181); (8191, 8207); (8232, 8239);
   (8287, 8303); (8306, 8307); (8335, 8335); (8349, 8351); (8385, 8399);
   (8433, 8447); (8588, 8591); (9255, 9279); (9291, 9311); (11124, 11125);
   (11158, 11158); (11508, 11512); (11558, 11558); (11560, 11564);
   (11566, 11567); (11624, 11630); (11633, 11646); (11671, 11679);
   (11687, 11687); (11695, 11695); (11703, 11703); (11711, 11711);
   (11719, 11719); (11727, 11727); (11735, 11735); (11743, 11743);
   (11870, 11903); (11930, 11930); (12020, 12031); (12246, 12271);
   (12284, 12288); (12352, 12352); (12439, 12440); (12544, 12548);
   (12592, 12592); (12687, 12687); (12772, 12783); (12831, 12831);
   (42125, 42127); (42183, 42191); (42540, 42559); (42744, 42751);
   (42955, 42959); (42962, 42962); (42964, 42964); (42970, 42993);
   (43053, 43055); (43066, 43071); (43128, 43135); (43206, 43213);
   (43226, 43231); (43348, 43358); (43389, 43391); (43470, 43470);
   (43482, 43485); (43519, 43519); (43575, 43583); (43598, 43599);
   (43610, 43611); (43715, 43738); (43767, 43776); (43783, 43784);
   (43791, 43792); (43799, 43807); (43815, 43815); (43823, 43823);
   (43884, 43887); (44014, 44015); (44026, 44031); (55204, 55215);
   (55239, 55242); (55292, 63743); (64110, 64111); (64218, 64255);
   (64263, 64274); (64280, 64284); (64311, 64311); (64317, 64317);
   (64319, 64319); (64322, 64322); (64325, 64325); (64451, 64466);
   (64912, 64913); (64968, 64974); (64976, 65007); (65050, 65055);
   (65107, 65107); (65127, 65127); (65132, 65135); (65141, 65141);
   (65277, 65280); (65471, 65473); (65480, 65481); (65488, 65489);
   (65496, 65497); (65501, 65503); (65511, 65511); (65519, 65531);
   (65534, 65535); (65548, 65548); (65575, 65575); (65595, 65595);
   (65598, 65598); (65614, 65615); (65630, 65663); (65787, 65791);
   (65795, 65798); (65844, 65846); (65935, 65935); (65949, 65951);
   (65953, 65999); (66046, 66175); (66205, 66207); (66257, 66271);
   (66300, 66303); (66340, 66348); (66379, 66383); (66427, 66431);
   (66462, 66462); (66500, 66503); (66518, 66559); (66718, 66719);
   (66730, 66735); (66772, 66775); (66812, 66815); (66856, 66863);
   (66916, 66926); (66939, 66939); (66955, 66955); (66963, 66963);
   (66966, 66966); (66978, 66978); (66994, 66994); (67002, 67002);
   (67005, 67071); (67383, 67391); (67414, 67423); (67432, 67455);
   (67462, 67462); (67505, 67505); (67515, 67583); (67590, 67591);
   (67593, 67593); (67638, 67638); (67641, 67643); (67645, 67646);
   (67670, 67670); (67743, 67750); (67760, 67807); (67827, 67827);
   (67830, 67834); (67868, 67870); (67898, 67902); (67904, 67967);
   (68024, 68027); (68048, 68049); (68100, 68100); (68103, 68107);
   (68116, 68116); (68120, 68120); (68150, 68151); (68155, 68158);
   (68169, 68175); (68185, 68191); (68256, 68287); (68327, 68330);
   (68343, 68351); (68406, 68408); (68438, 68439); (68467, 68471);
   (68498, 68504); (68509, 68520); (68528, 68607); (68681, 68735);
   (68787, 68799); (68851, 68857); (68904, 68911); (68922, 69215);
   (69247, 69247); (69290, 69290); (69294, 69295); (69298, 69375);
   (69416, 69423); (69466, 69487); (69514, 69551); (69580, 69599);
   (69623, 69631); (69710, 69713); (69750, 69758); (69821, 69821);
   (69827, 69839); (69865, 69871); (69882, 69887); (69941, 69941);
   (69960, 69967); (70007, 70015); (70112, 70112); (70133, 70143);
   (70162, 70162); (70207, 70271); (70279, 70279); (70281, 70281);
   (70286, 70286); (70302, 70302); (70314, 70319); (70379, 70383);
   (70394, 70399); (70404, 70404); (70413, 70414); (70417, 70418);
   (70441, 70441); (70449, 70449); (70452, 70452); (70458, 70458);
   (70469, 70470); (70473, 70474); (70478, 70479); (70481, 70486);
   (70488, 70492); (70500, 70501); (70509, 70511); (70517, 70655);
   (70748, 70748); (70754, 70783); (70856, 70863); (70874, 71039);
   (71094, 71095); (71134, 71167); (71237, 71247); (71258, 71263);
   (71277, 71295); (71354, 71359); (71370, 71423); (71451, 71452);
   (71468, 71471); (71495, 71679); (71740, 71839); (71923, 71934);
   (71943, 71944); (71946, 71947); (71956, 71956); (71959, 71959);
   (71990, 71990); (71993, 71994); (72007, 72015); (72026, 72095);
   (72104, 72105); (72152, 72153); (72165, 72191); (72264, 72271);
   (72355, 72367); (72441, 72703); (72713, 72713); (72759, 72759);
   (72774, 72783); (72813, 72815); (72848, 72849); (72872, 72872);
   (72887, 72959); (72967, 72967); (72970, 72970); (73015, 73017);
   (73019, 73019); (73022, 73022); (73032, 73039); (73050, 73055);
   (73062, 73062); (73065, 73065); (73103, 73103); (73106, 73106);
   (73113, 73119); (73130, 73439); (73465, 73647); (73649, 73663);
   (73714, 73726); (74650, 74751); (74863, 74863); (74869, 74879);
   (75076, 77711); (77811, 77823); (78895, 82943); (83527, 92159);
   (92729, 92735); (92767, 92767); (92778, 92781); (92863, 92863);
   (92874, 92879); (92910, 92911); (92918, 92927); (92998, 93007);
   (93018, 93018); (93026, 93026); (93048, 93052); (93072, 93759);
   (93851, 93951); (94027, 94030); (94088, 94094); (94112, 94175);
   (94181, 94191); (94194, 94207); (100344, 100351); (101590, 101631);
   (101641, 110575); (110580, 110580); (110588, 110588); (110591, 110591);
   (110883, 110927); (110931, 110947); (110952, 110959); (111356, 113663);
   (113771, 113775); (113789, 113791); (113801, 113807); (113818, 113819);
   (113824, 118527); (118574, 118575); (118599, 118607); (118724, 118783);
   (119030, 119039); (119079, 119080); (119155, 119162); (119275, 119295);
   (119366, 119519); (119540, 119551); (119639, 119647); (119673, 119807);
   (119893, 119893); (119965, 119965); (119968, 119969); (119971, 119972);
   (119975, 119976); (119981, 119981); (119994, 119994); (119996, 119996);
   (120004, 120004); (120070, 120070); (120075, 120076); (120085, 120085);
   (120093, 120093); (120122, 120122); (120127, 120127); (120133, 120133);
   (120135, 120137); (120145, 120145); (120486, 120487); (120780, 120781);
   (121484, 121498); (121504, 121504); (121520, 122623); (122655, 122879);
   (122887, 122887); (122905, 122906); (122914, 122914); (122917, 122917);
   (122923, 123135); (123181, 123183); (123198, 123199); (123210, 123213);
   (123216, 123535); (123567, 123583); (123642, 123646); (123648, 124895);
   (124903, 124903); (124908, 124908); (124911, 124911); (124927, 124927);
   (125125, 125126); (125143, 125183); (125260, 125263); (125274, 125277);
   (125280, 126064); (126133, 126208); (126270, 126463); (126468, 126468);
   (126496, 126496); (126499, 126499); (126501, 126502); (126504, 126504);
   (126515, 126515); (126520, 126520); (126522, 126522); (126524, 126529);
   (126531, 126534); (126536, 126536); (126538, 126538); (126540, 126540);
   (126544, 126544); (126547, 126547); (126549, 126550); (126552, 126552);
   (126554, 126554); (126556, 126556); (126558, 126558); (126560, 126560);
   (126563, 126563); (126565, 126566); (126571, 126571); (126579, 126579);
   (126584, 126584); (126589, 126589); (126591, 126591); (126602, 126602);
   (126620, 126624); (126628, 126628); (126634, 126634); (126652, 126703);
   (126706, 126975); (127020, 127023); (127124, 127135); (127151, 127152);
   (127168, 127168); (127184, 127184); (127222, 127231); (127406, 127461);
   (127491, 127503); (127548, 127551); (127561, 127567); (127570, 127583);
   (127590, 127743); (128728, 128732); (128749, 128751); (128765, 128767);
   (128884, 128895); (128985, 128991); (129004, 129007); (129009, 129023);
   (129036, 129039); (129096, 129103); (129114, 129119); (129160, 129167);
   (129198, 129199); (129202, 129279); (129620, 129631); (129646, 129647);
   (129653, 129655); (129661, 129663); (129671, 129679); (129709, 129711);
   (129723, 129727); (129734, 129743); (129754, 129759); (129768, 129775);
   (129783, 129791); (129939, 129939); (129995, 130031); (130042, 131071);
   (173792, 173823); (177977, 177983); (178206, 178207); (183970, 183983);
   (191457, 194559); (195102, 196607); (201547, 917759); (918000, 1114111)]%N.

(** *** [repr(s)] for a [str] *)

Definition hex_digit (n : N) : N :=
  if (n <? 10)%N then (48 + n)%N else (87 + n)%N.

Fixpoint hex_fixed (width : nat) (n : N) : list N :=
  match width with
  | O => []
  | S w => (hex_fixed w (n / 16) ++ [hex_digit (n mod 16)])%list
  end.

Definition repr_char (quote c : N) : list N :=
  let backslash := 92%N in
  if ((c =? quote) || (c =? backslash))%N%bool then [backslash; c]
  else if (c =? 9)%N then [backslash; 116%N]
  else if (c =? 10)%N then [backslash; 110%N]
  else if (c =? 13)%N then [backslash; 114%N]
  else if ((c <? 32) || (c =? 127))%N%bool then
    backslash :: 120%N :: hex_fixed 2 c
  else if (c <? 127)%N then [c]
  else if in_ranges nonprintable_ranges c then
    if (c <=? 0xFF)%N then backslash :: 120%N :: hex_fixed 2 c
    else if (c <=? 0xFFFF)%N then backslash :: 117%N :: hex_fixed 4 c
    else backslash :: 85%N :: hex_fixed 8 c
  else [c].

Definition py_repr (s : list N) : list N :=
  let quote :=
    if (existsb (N.eqb 39) s && negb (existsb (N.eqb 34) s))%bool
    then 34%N else 39%N in
  (quote :: flat_map (repr_char quote) s ++ [quote])%list.

(** *** [int(s)] for a [str], in base 10

    As the interpreter does it: the text is first brought to ASCII
    (white space beyond ASCII becomes a space, a decimal digit beyond
    ASCII its ASCII digit, and the text is cut with a question mark at the
    first other character beyond ASCII), then read as white space, a sign,
    digits grouped by single underscores, white space.  More than 4300
    digits are refused (the interpreter's default limit). *)

(** [Py_UNICODE_TODECIMAL] beyond ASCII *)
Definition decimal_value (c : N) : option N :=
  match find (fun r => in_range (fst r) (snd r) c) digit_ranges with
  | Some r => Some ((c - fst r) mod 10)%N
  | None => None
  end.

Fixpoint transform (l : list N) : string :=
  match l with
  | [] => EmptyString
  | c :: rest =>
      if (c <? 127)%N then String (ascii_of_N c) (transform rest)
      else if in_ranges space_ranges c then String " " (transform rest)
      else match decimal_value c with
           | Some d => String (ascii_of_N (48 + d)) (transform rest)
           | None => "?"
           end
  end.

Definition to_ascii (s : string) : string :=
  if is_ascii s then s else transform (utf8_decode s).

(** White space of the C locale *)
Definition is_space (c : ascii) : bool :=
  let n := nat_of_ascii c in
  (((9 <=? n)%nat && (n <=? 13)%nat) || (n =? 32)%nat)%bool.

Fixpoint lstrip (s : string) : string :=
  match s with
  | String c rest => if is_space c then lstrip rest else s
  | EmptyString => EmptyString
  end.

Definition digit_val (c : ascii) : option Z :=
  let n := nat_of_ascii c in
  if ((48 <=? n)%nat && (n <=? 57)%nat)%bool then Some (Z.of_nat (n - 48)) else None.

(** What was read last *)
Inductive Prev : Type := AtStart | AfterDigit | AfterUnderscore.

(** The run of digits and underscores at the head of [s]: the number of
    digits, their value and the text after the run; [None] for an
    underscore at the start, after another underscore or at the end of the
    run. *)
Fixpoint scan (prev : Prev) (count value : Z) (s : string)
    : option (Z * Z * string) :=
  let finish :=
    match prev with
    | AfterUnderscore => None
    | _ => Some (count, value, s)
    end in
  match s with
  | EmptyString => finish
  | String c rest =>
      match digit_val c with
      | Some d => scan AfterDigit (count + 1) (10 * value + d) rest
      | None =>
          if Ascii.eqb c "_" then
            match prev with
            | AfterDigit => scan AfterUnderscore count value rest
            | _ => None
            end
          else finish
      end
  end.

Inductive Parsed : Type :=
| Value (n : Z)
| TooManyDigits (count : Z)
| Invalid.

Definition max_str_digits : Z := 4300.

(** One sign at the head of the text *)
Definition split_sign (s : string) : Z * string :=
  match s with
  | String c rest =>
      if Ascii.eqb c "+" then (1, rest)
      else if Ascii.eqb c "-" then (-1, rest)
      else (1, s)
  | EmptyString => (1, s)
  end.

Definition long_from_string (s : string) : Parsed :=
  let (sign, s) := split_sign (lstrip s) in
  match scan AtStart 0 0 s with
  | None => Invalid
  | Some (count, value, rest) =>
      if max_str_digits <? count then TooManyDigits count
      else if count =? 0 then Invalid
      else match lstrip rest with
           | EmptyString => Value (sign * value)
           | _ => Invalid
           end
  end.

Definition py_int (s : string) : Res Z :=
  match long_from_string (to_ascii s) with
  | Value n => Ok n
  | TooManyDigits count =>
      Raise (mkExn ValueError
               ("Exceeds the limit (4300 digits) for integer string conversion: value has "
                ++ str_of_Z count
                ++ " digits; use sys.set_int_max_str_digits() to increase the limit"))
  | Invalid =>
      Raise (mkExn ValueError
               ("invalid literal for int() with base 10: "
                ++ utf8_encode_all (firstn 200 (py_repr (utf8_decode s)))))
  end.

End Py.
Import Py.

(** ** Effects: what a call does besides returning *)

Module Effects.

(** Configuration of a [dns.resolver.Resolver] object, the four attributes
    the program stores.  [port], [timeout] and [lifetime] are plain
    attributes; [nameservers] is a property whose setter checks the names
    before it stores them (see [assign_nameservers]). *)
Record Resolver : Type := mkResolver {
  nameservers : list string;
  port : Z;
  timeout : Z;
  lifetime : Z
}.

(** A printed line.  Lines whose text involves the formatting of a float
    or of the current time keep the value instead of the text. *)
Inductive Line : Type :=
| Text (s : string)
| Banner
| SuccessLine (latency : Q)
| RateLine (percent : Q)
| MinLine (latency : Q)
| MaxLine (latency : Q)
| MeanLine (latency : Q)
| EndLine.

(** The observable actions, in program order. *)
Inductive Event : Type :=
| EvGetHostByName (host : string)
| EvResolveHost (r : Resolver) (host : string)
| EvSocketCreated
| EvSetTimeout (seconds : Z)
| EvConnectEx (ip : string) (port : Z)
| EvSocketClosed
| EvQuery (r : Resolver) (domain : string)
| EvPrint (l : Line)
| EvSleep.

(** The stores themselves: [r.nameservers], [r.port], [r.timeout],
    [r.lifetime] *)
Definition set_nameservers (r : Resolver) (v : list string) : Resolver :=
  mkResolver v (port r) (timeout r) (lifetime r).
Definition set_port (r : Resolver) (v : Z) : Resolver :=
  mkResolver (nameservers r) v (timeout r) (lifetime r).
Definition set_timeout (r : Resolver) (v : Z) : Resolver :=
  mkResolver (nameservers r) (port r) v (lifetime r).
Definition set_lifetime (r : Resolver) (v : Z) : Resolver :=
  mkResolver (nameservers r) (port r) (timeout r) v.

(** The answers of the platform, of the DNS library and of the network
    during one attempt, on a machine that has a resolver configuration
    (so that [dns.resolver.Resolver()] returns). *)
Record Env : Type := mkEnv {
  (** [socket.gethostbyname(host)] *)
  gethostbyname : string -> Res string;
  (** the configuration of a fresh [dns.resolver.Resolver()] *)
  default_resolver : Resolver;
  (** the check that the setter of [nameservers] runs on the names it is
      given: the library raises for a name it does not take for a name
      server *)
  check_nameservers : list string -> Res unit;
  (** [r.resolve(name, 'A')]: the answers, as text *)
  resolve : Resolver -> string -> Res (list string);
  (** [socket.socket(AF_INET, SOCK_STREAM)] *)
  socket_new : Res unit;
  (** [sock.settimeout(seconds)] *)
  settimeout : Z -> Res unit;
  (** [sock.connect_ex((ip, port))] on a socket with the given time-out *)
  connect_ex : Z -> string -> Z -> Res Z;
  (** [sock.close()] *)
  close : Res unit;
  (** the successive readings of [time.perf_counter()] *)
  perf_counter : nat -> Q;
  (** what the platform look-up returns is an IPv4 address in dotted
      form, and the library takes such an address for a name server *)
  gethostbyname_accepted :
    forall host ip,
      gethostbyname host = Ok ip -> check_nameservers [ip] = Ok tt
}.

(** A computation: the events it produced and how it ended. *)
Definition M (A : Type) : Type := (list Event * Res A)%type.

Definition ret {A} (a : A) : M A := ([], Ok a).

Definition bind {A B} (m : M A) (k : A -> M B) : M B :=
  match m with
  | (t, Ok a) => let (t', r) := k a in ((t ++ t')%list, r)
  | (t, Raise e) => (t, Raise e)
  end.

(** [try: body  except Exception as e: handler] *)
Definition try_except {A} (body : M A) (handler : Exn -> M A) : M A :=
  match body with
  | (t, Ok a) => (t, Ok a)
  | (t, Raise e) => let (t', r) := handler e in ((t ++ t')%list, r)
  end.

(** [try: body  except C as e: handler], where [catches] tells the
    instances of [C]; any other exception goes through. *)
Definition try_except_only {A} (catches : Exn -> bool) (body : M A)
    (handler : Exn -> M A) : M A :=
  match body with
  | (t, Ok a) => (t, Ok a)
  | (t, Raise e) =>
      if catches e then let (t', r) := handler e in ((t ++ t')%list, r)
      else (t, Raise e)
  end.

Definition lift {A} (r : Res A) : M A := ([], r).
Definition call {A} (ev : Event) (r : Res A) : M A := ([ev], r).
Definition emit (ev : Event) : M unit := ([ev], Ok tt).
Definition print (l : Line) : M unit := emit (EvPrint l).

Definition trace {A} (m : M A) : list Event := fst m.
Definition outcome {A} (m : M A) : Res A := snd m.

(** [r.nameservers = names]: the setter's check, then the store *)
Definition assign_nameservers (env : Env) (r : Resolver) (names : list string)
    : M Resolver :=
  bind (lift (check_nameservers env names))
    (fun _ => ret (set_nameservers r names)).

End Effects.
Import Effects.

Declare Scope py_scope.
Delimit Scope py_scope with py.
Notation "x <- m ;; k" := (bind m (fun x => k))
  (at level 100, m at next level, right associativity) : py_scope.
Notation "m ;;; k" := (bind m (fun _ => k))
  (at level 100, right associativity) : py_scope.
Notation "' pat <- m ;; k" := (bind m (fun x => match x with pat => k end))
  (at level 100, pat pattern, m at next level, right associativity) : py_scope.
Open Scope py_scope.

(** ** The probe: [src/dns-delay-testing.py], lines 8-88 *)

Module Probe.

(** The outcome of one attempt: the pair [(True, latency)] or
    [(False, full_error)] that [test_dns_latency] returns. *)
Inductive ProbeOutcome : Type :=
| Success (latency : Q)
| Failure (message : string).

Definition succeeded (o : ProbeOutcome) : bool :=
  match o with Success _ => true | Failure _ => false end.

Definition nl : string := String (ascii_of_nat 10) EmptyString.

(** Lines 8-19.  The socket exists from [EvSocketCreated] on and is
    released by [EvSocketClosed]. *)
Definition test_port_connectivity (env : Env) (ip : string) (port : Z)
    (timeout : Z) : M bool :=
  try_except
    (_ <- match socket_new env with
          | Ok tt => call EvSocketCreated (Ok tt)
          | Raise e => lift (Raise e)
          end ;;
     _ <- call (EvSetTimeout timeout) (settimeout env timeout) ;;
     result <- call (EvConnectEx ip port) (connect_ex env timeout ip port) ;;
     _ <- call EvSocketClosed (close env) ;;
     ret (result =? 0))
    (fun e =>
       print (Text ("  端口连接测试异常: " ++ exn_msg e)) ;;;
       ret false).

(** Lines 26-33: the host part and the port of the server spec. *)
Definition parse_server_spec (dns_server : string) : Res (string * Z) :=
  match split_colon dns_server with
  | Some (server_part, port_part) =>
      match py_int port_part with
      | Ok port => Ok (server_part, port)
      | Raise e => Raise e
      end
  | None => Ok (dns_server, 53)
  end.

(** [str(answers[0])] *)
Definition first_answer (answers : list string) : Res string :=
  match answers with
  | a :: _ => Ok a
  | [] => Raise (mkExn IndexError "list index out of range")
  end.

(** Lines 42-46: the look-up through a resolver with the system's
    configuration. *)
Definition resolve_with_system (env : Env) (server_part : string)
    (timeout : Z) : M string :=
  let system_resolver := default_resolver env in
  let system_resolver := set_timeout system_resolver timeout in
  let system_resolver := set_lifetime system_resolver timeout in
  answers <- call (EvResolveHost system_resolver server_part)
               (resolve env system_resolver server_part) ;;
  lift (first_answer answers).

(** Lines 36-49: [except socket.gaierror] lets every other exception of
    the first look-up through; the inner handler catches all. *)
Definition resolve_ip (env : Env) (server_part : string) (timeout : Z)
    : M string :=
  try_except_only is_gaierror
    (call (EvGetHostByName server_part) (gethostbyname env server_part))
    (fun _ =>
       try_except (resolve_with_system env server_part timeout)
         (fun _ => ret server_part)).

Definition hint_timeout : string := "服务器响应缓慢、网络连接问题或防火墙限制".
Definition hint_refused : string := "服务器拒绝连接、访问权限问题".
Definition clause_port_open : string := "端口开放但DNS服务可能未正常工作".
Definition clause_port_unreachable (port : Z) : string :=
  "端口" ++ str_of_Z port ++ "无法连接".

(** Lines 71-84: the clauses appended to [additional_info]. *)
Definition additional_info (port_open : bool) (port : Z) (error_msg : string)
    : list string :=
  ((if negb port_open then [clause_port_unreachable port]
    else [clause_port_open])
   ++
   (if str_in "timeout" (lower error_msg) then [hint_timeout]
    else if str_in "refused" (lower error_msg) then [hint_refused]
    else []))%list.

(** Lines 69-87 *)
Definition full_error (port_open : bool) (port : Z) (e : Exn) : string :=
  let error_type := type_name (exn_class e) in
  let error_msg := exn_msg e in
  error_type ++ ": " ++ error_msg ++ nl ++ "可能原因: "
    ++ String.concat ", " (additional_info port_open port error_msg).

(** Line 53 *)
Definition server_line (ip : string) (port : Z) (port_open : bool) : string :=
  "  服务器IP: " ++ ip ++ ", 端口: " ++ str_of_Z port ++ ", 端口连接状态: "
    ++ (if port_open then "开放" else "关闭或无法连接").

(** Lines 21-88.  [retries] is a parameter of the source function. *)
Definition test_dns_latency (env : Env) (dns_server domain : string)
    (timeout : Z) (retries : Z) : M ProbeOutcome :=
  let resolver := default_resolver env in
  ' (server_part, port) <- lift (parse_server_spec dns_server) ;;
  ip <- resolve_ip env server_part timeout ;;
  port_open <- test_port_connectivity env ip port 2 ;;
  _ <- print (Text (server_line ip port port_open)) ;;
  resolver <- assign_nameservers env resolver [ip] ;;
  let resolver := set_port resolver port in
  let resolver := set_timeout resolver timeout in
  let resolver := set_lifetime resolver timeout in
  try_except
    (let start_time := perf_counter env 0 in
     _ <- call (EvQuery resolver domain) (resolve env resolver domain) ;;
     let end_time := perf_counter env 1 in
     let latency := ((end_time - start_time) * 1000)%Q in
     ret (Success latency))
    (fun e => ret (Failure (full_error port_open port e))).

End Probe.

(** ** The earlier variant: [src/unnamed/part_000], lines 7-32 *)

Module Part000.
Import Probe.

Definition test_dns_latency (env : Env) (dns_server domain : string)
    (timeout : Z) (retries : Z) : M ProbeOutcome :=
  let resolver := default_resolver env in
  resolver <-
    match split_colon dns_server with
    | Some (ip, port) =>
        resolver <- assign_nameservers env resolver [ip] ;;
        port <- lift (py_int port) ;;
        ret (set_port resolver port)
    | None =>
        resolver <- assign_nameservers env resolver [dns_server] ;;
        ret (set_port resolver 53)
    end ;;
  let resolver := set_timeout resolver timeout in
  let resolver := set_lifetime resolver timeout in
  try_except
    (let start_time := perf_counter env 0 in
     _ <- call (EvQuery resolver domain) (resolve env resolver domain) ;;
     let end_time := perf_counter env 1 in
     let latency := ((end_time - start_time) * 1000)%Q in
     ret (Success latency))
    (fun e => ret (Failure (exn_msg e))).

End Part000.

(** ** The run: [main], lines 90-150 (lines 34-94 of [part_000]) *)

Module Runner.
Import Probe.

(** The parsed command line *)
Record Args : Type := mkArgs {
  dns : string;
  domain : string;
  count : Z;
  timeout : Z
}.

(** The three variables of the loop *)
Record LoopState : Type := mkLoop {
  results : list ProbeOutcome;
  success_count : Z;
  latency_list : list Q
}.

Definition initial : LoopState := mkLoop [] 0 [].

Section Loop.

(** The attempt made at index [i]: [main] is the same text in both source
    files and differs only in the [test_dns_latency] it calls. *)
Variable probe : Z -> M ProbeOutcome.
Variable count : Z.

(** The body of [for i in range(args.count)] *)
Definition attempt (i : Z) (st : LoopState) : M LoopState :=
  _ <- print (Text ("第" ++ str_of_Z (i + 1) ++ "次测试...")) ;;
  o <- probe i ;;
  st <- match o with
        | Success result =>
            let st := mkLoop (results st) (success_count st + 1)
                        (latency_list st ++ [result]) in
            _ <- print (SuccessLine result) ;;
            ret st
        | Failure result =>
            _ <- print (Text ("失败，原因: " ++ result)) ;;
            ret st
        end ;;
  let st := mkLoop (results st ++ [o]) (success_count st) (latency_list st) in
  _ <- (if i <? count - 1 then emit EvSleep else ret tt) ;;
  ret st.

(** [n] iterations starting at index [i] *)
Fixpoint attempts (n : nat) (i : Z) (st : LoopState) : M LoopState :=
  match n with
  | O => ret st
  | S n' => st' <- attempt i st ;; attempts n' (i + 1) st'
  end.

(** [range(args.count)] has [Z.to_nat count] elements, none when
    [count <= 0]. *)
Definition loop : M LoopState := attempts (Z.to_nat count) 0 initial.

End Loop.

(** [a / b] on two [int]s *)
Definition true_div (a b : Z) : Res Q :=
  if b =? 0 then Raise (mkExn ZeroDivisionError "division by zero")
  else Ok (inject_Z a / inject_Z b)%Q.

Definition qmin (a b : Q) : Q := if Qle_bool b a then b else a.
Definition qmax (a b : Q) : Q := if Qle_bool a b then b else a.
Definition qsum (l : list Q) : Q := fold_left Qplus l 0%Q.

Definition rule : string := "--------------------------------------------------".

(** Lines 138-150 *)
Definition summary (count : Z) (st : LoopState) : M unit :=
  _ <- print (Text rule) ;;
  _ <- print (Text "=== 测试结果汇总 ===") ;;
  _ <- print (Text ("总测试次数: " ++ str_of_Z count)) ;;
  _ <- print (Text ("成功次数: " ++ str_of_Z (success_count st))) ;;
  _ <- print (Text ("失败次数: " ++ str_of_Z (count - success_count st))) ;;
  rate <- lift (true_div (success_count st) count) ;;
  _ <- print (RateLine (rate * 100)%Q) ;;
  _ <- match latency_list st with
       | [] => ret tt
       | first :: rest =>
           _ <- print (MinLine (fold_left qmin rest first)) ;;
           _ <- print (MaxLine (fold_left qmax rest first)) ;;
           print (MeanLine
                    (qsum (latency_list st)
                     / inject_Z (Z.of_nat (List.length (latency_list st))))%Q)
       end ;;
  print EndLine.

(** [main] over any [test_dns_latency] *)
Definition main_with (probe : Z -> M ProbeOutcome) (args : Args) : M unit :=
  _ <- print Banner ;;
  st <- loop probe (count args) ;;
  summary (count args) st.

(** [main] of [dns-delay-testing.py]; [env_at i] answers attempt [i]. *)
Definition main (env_at : Z -> Env) (args : Args) : M unit :=
  main_with
    (fun i => Probe.test_dns_latency (env_at i) (dns args) (domain args)
                (timeout args) 1)
    args.

(** [main] of [part_000] *)
Definition main_part_000 (env_at : Z -> Env) (args : Args) : M unit :=
  main_with
    (fun i => Part000.test_dns_latency (env_at i) (dns args) (domain args)
                (timeout args) 1)
    args.

End Runner.

(** ** Environments used as concrete inputs *)

Module Samples.
Import Probe.

Definition system_config : Resolver := mkResolver ["127.0.0.53"] 53 2 5.

(** A text made of digits and dots only *)
Definition dotted_digits (s : string) : bool :=
  (negb (String.eqb s "")
   && forallb (fun c => orb (Ascii.eqb c ".")
                          (match digit_val c with Some _ => true | None => false end))
        (list_ascii_of_string s))%bool.

(** A library that takes only such texts for name servers *)
Definition addresses_only (names : list string) : Res unit :=
  match find (fun name => negb (dotted_digits name)) names with
  | Some name =>
      Raise (mkExn ValueError
               ("nameserver " ++ name
                ++ " is not an IP address or valid https URL"))
  | None => Ok tt
  end.

(** A platform look-up that returns an address as it is and finds
    110.242.68.66 for every other name *)
Definition always_found (host : string) : Res string :=
  if dotted_digits host then Ok host else Ok "110.242.68.66".

(** A platform look-up that knows no name *)
Definition never_found (host : string) : Res string :=
  Raise (mkExn GaiError "[Errno -2] Name or service not known").

(** A platform look-up that cannot encode the host name (an empty label) *)
Definition never_encoded (host : string) : Res string :=
  Raise (mkExn (OtherException "UnicodeError")
           "encoding with 'idna' codec failed (UnicodeError: label empty or too long)").

Lemma always_found_accepted (host ip : string) :
  always_found host = Ok ip -> addresses_only [ip] = Ok tt.
Proof.
  unfold always_found, addresses_only.
  destruct (dotted_digits host) eqn:E; intros [= <-]; cbn [find].
  - rewrite E. reflexivity.
  - reflexivity.
Qed.

Lemma never_found_accepted (host ip : string) :
  never_found host = Ok ip -> addresses_only [ip] = Ok tt.
Proof. discriminate. Qed.

Lemma never_encoded_accepted (host ip : string) :
  never_encoded host = Ok ip -> addresses_only [ip] = Ok tt.
Proof. discriminate. Qed.

(** Nothing answers: the name is unknown to the platform and to the
    system's resolver, and connecting to a name that does not resolve
    raises. *)
Definition env_unreachable : Env :=
  mkEnv
    never_found
    system_config
    addresses_only
    (fun _ _ =>
       Raise (mkExn (OtherException "LifetimeTimeout")
                "The resolution lifetime expired"))
    (Ok tt)
    (fun _ => Ok tt)
    (fun _ _ _ =>
       Raise (mkExn GaiError "[Errno -2] Name or service not known"))
    (Ok tt)
    (fun n => inject_Z (Z.of_nat n))
    never_found_accepted.

(** Everything answers: the platform finds every name, the port accepts
    the connection and the query takes 12 ms. *)
Definition env_reachable : Env :=
  mkEnv
    always_found
    system_config
    addresses_only
    (fun _ _ => Ok ["110.242.68.66"])
    (Ok tt)
    (fun _ => Ok tt)
    (fun _ _ _ => Ok 0)
    (Ok tt)
    (fun n => (inject_Z (Z.of_nat n) * (12 # 1000))%Q)
    always_found_accepted.

(** The platform look-up rejects the host name before any look-up is made
    (an empty label cannot be encoded), and so does the DNS library. *)
Definition env_bad_label : Env :=
  mkEnv
    never_encoded
    system_config
    addresses_only
    (fun _ _ =>
       Raise (mkExn (OtherException "EmptyLabel") "A DNS label is empty."))
    (Ok tt)
    (fun _ => Ok tt)
    (fun _ _ _ =>
       Raise (mkExn GaiError "[Errno -2] Name or service not known"))
    (Ok tt)
    (fun n => inject_Z (Z.of_nat n))
    never_encoded_accepted.

(** The server's port accepts connections but every query is refused after
    a wait: the message names both causes. *)
Definition env_refusing : Env :=
  mkEnv
    always_found
    system_config
    addresses_only
    (fun _ _ =>
       Raise (mkExn (OtherException "OSError")
                "timeout waiting for reply: connection refused"))
    (Ok tt)
    (fun _ => Ok tt)
    (fun _ _ _ => Ok 0)
    (Ok tt)
    (fun n => inject_Z (Z.of_nat n))
    always_found_accepted.

(** A run whose even attempts are answered and whose odd attempts are
    not. *)
Definition env_alternating (i : Z) : Env :=
  if Z.even i then env_reachable else env_unreachable.

(** A run answered up to attempt [j] and whose platform look-up rejects
    the host name from attempt [j] on. *)
Definition env_rejecting_from (j i : Z) : Env :=
  if i <? j then env_reachable else env_bad_label.

End Samples.

(** ** Vocabulary of the statements *)

Module Spec.
Import Probe Runner.

(** The four socket calls of the port check all return and [connect_ex]
    gives 0: the connection was made. *)
Definition connection_completed (env : Env) (ip : string) (port timeout : Z)
    : Prop :=
  socket_new env = Ok tt /\
  settimeout env timeout = Ok tt /\
  connect_ex env timeout ip port = Ok 0 /\
  close env = Ok tt.

(** The number a decimal numeral denotes, read from the left with [acc]
    for the digits already read *)
Fixpoint uint_value (acc : Z) (d : Decimal.uint) : Z :=
  match d with
  | Decimal.Nil => acc
  | Decimal.D0 d' => uint_value (10 * acc + 0) d'
  | Decimal.D1 d' => uint_value (10 * acc + 1) d'
  | Decimal.D2 d' => uint_value (10 * acc + 2) d'
  | Decimal.D3 d' => uint_value (10 * acc + 3) d'
  | Decimal.D4 d' => uint_value (10 * acc + 4) d'
  | Decimal.D5 d' => uint_value (10 * acc + 5) d'
  | Decimal.D6 d' => uint_value (10 * acc + 6) d'
  | Decimal.D7 d' => uint_value (10 * acc + 7) d'
  | Decimal.D8 d' => uint_value (10 * acc + 8) d'
  | Decimal.D9 d' => uint_value (10 * acc + 9) d'
  end.

(** The number of digits of the decimal writing of [n] *)
Definition decimal_digits (n : Z) : nat := String.length (str_of_Z (Z.abs n)).

(** A character that no integer literal holds: neither white space of the
    C locale, nor a digit, an underscore or a sign *)
Definition is_junk (c : ascii) : bool :=
  (negb (is_space c)
   && match digit_val c with Some _ => false | None => true end
   && negb (Ascii.eqb c "_") && negb (Ascii.eqb c "+")
   && negb (Ascii.eqb c "-"))%bool.

Definition has_junk (s : string) : bool :=
  existsb is_junk (list_ascii_of_string s).

(** The text holds such a character of ASCII *)
Definition is_ascii_junk (c : ascii) : bool :=
  (is_junk c && (N_of_ascii c <? 0x80)%N)%bool.

Definition has_ascii_junk (s : string) : bool :=
  existsb is_ascii_junk (list_ascii_of_string s).

(** A code point of ASCII that no integer literal holds *)
Definition junk_point (c : N) : Prop :=
  (c < 128)%N /\ is_junk (ascii_of_N c) = true.

(** Sockets created and not yet closed at the end of a trace *)
Fixpoint open_sockets (t : list Event) : Z :=
  match t with
  | [] => 0
  | EvSocketCreated :: t' => open_sockets t' + 1
  | EvSocketClosed :: t' => open_sockets t' - 1
  | _ :: t' => open_sockets t'
  end.

(** Queries sent to the server under test (line 63; line 26 of
    [part_000]).  The look-up of the server's own name through the system's
    resolver is [EvResolveHost] and is not counted. *)
Fixpoint queries_issued (t : list Event) : nat :=
  match t with
  | [] => 0
  | EvQuery _ _ :: t' => S (queries_issued t')
  | _ :: t' => queries_issued t'
  end.

(** The two tests on the raw error message *)
Definition names_timeout (error_msg : string) : bool :=
  str_in "timeout" (lower error_msg).
Definition names_refusal (error_msg : string) : bool :=
  str_in "refused" (lower error_msg).

Definition is_reachability_clause (c : string) : Prop :=
  c = clause_port_open \/ exists port, c = clause_port_unreachable port.

Definition is_cause_hint (c : string) : Prop :=
  c = hint_timeout \/ c = hint_refused.

(** The reachability clause chosen by the verdict of the port check *)
Definition reachability_clause (port_open : bool) (port : Z) : string :=
  if port_open then clause_port_open else clause_port_unreachable port.

(** The resolver the probe queries: lines 55-58 *)
Definition probe_resolver (ip : string) (port timeout : Z) : Resolver :=
  mkResolver [ip] port timeout timeout.

(** The resolver of the second look-up: lines 42-44 *)
Definition system_resolver (env : Env) (timeout : Z) : Resolver :=
  set_lifetime (set_timeout (default_resolver env) timeout) timeout.

(** Counting the outcomes collected so far *)
Definition successes (l : list ProbeOutcome) : Z :=
  Z.of_nat (List.length (filter succeeded l)).
Definition failures (l : list ProbeOutcome) : Z :=
  Z.of_nat (List.length (filter (fun o => negb (succeeded o)) l)).

(** The latencies of the successful outcomes, in order *)
Fixpoint latencies_of (l : list ProbeOutcome) : list Q :=
  match l with
  | [] => []
  | Success latency :: l' => latency :: latencies_of l'
  | Failure _ :: l' => latencies_of l'
  end.

(** The loop variables after one more outcome: lines 126-133 *)
Definition record_outcome (st : LoopState) (o : ProbeOutcome) : LoopState :=
  match o with
  | Success result =>
      mkLoop (results st ++ [o]) (success_count st + 1)
        (latency_list st ++ [result])
  | Failure _ => mkLoop (results st ++ [o]) (success_count st) (latency_list st)
  end.

(** What holds of the loop variables after [k] iterations *)
Definition aggregate (k : Z) (st : LoopState) : Prop :=
  Z.of_nat (List.length (results st)) = k /\
  success_count st = successes (results st) /\
  latency_list st = latencies_of (results st).

(** The failure count the summary prints for the loop variables after [k]
    iterations: line 142 with [k] for [args.count] *)
Definition failure_count (k : Z) (st : LoopState) : Z := k - success_count st.

(** What a run with no attempt prints before it stops *)
Definition zero_attempt_output : list Event :=
  [EvPrint Banner;
   EvPrint (Text rule);
   EvPrint (Text "=== 测试结果汇总 ===");
   EvPrint (Text "总测试次数: 0");
   EvPrint (Text "成功次数: 0");
   EvPrint (Text "失败次数: 0")].

(** *** Vocabulary of the further properties *)

(** Counting the events of one kind in a trace *)
Fixpoint count_events (p : Event -> bool) (t : list Event) : nat :=
  match t with
  | [] => 0
  | ev :: t' => (if p ev then 1 else 0) + count_events p t'
  end.

Definition is_sleep (ev : Event) : bool :=
  match ev with EvSleep => true | _ => false end.
Definition is_lookup (ev : Event) : bool :=
  match ev with EvGetHostByName _ => true | _ => false end.
Definition is_query (ev : Event) : bool :=
  match ev with EvQuery _ _ => true | _ => false end.

(** Pauses of [time.sleep(0.5)] and calls of [socket.gethostbyname] *)
Definition sleeps (t : list Event) : nat := count_events is_sleep t.
Definition lookups (t : list Event) : nat := count_events is_lookup t.

(** What an event of one attempt may be, for an attempt called with
    [timeout] and [domain]: no pause, no line other than text, the port
    check's time-out 2, and queries configured with [timeout]. *)
Definition attempt_event (timeout : Z) (domain : string) (ev : Event) : Prop :=
  match ev with
  | EvGetHostByName _ => True
  | EvResolveHost r _ => Effects.timeout r = timeout /\ lifetime r = timeout
  | EvSocketCreated => True
  | EvSetTimeout seconds => seconds = 2
  | EvConnectEx _ _ => True
  | EvSocketClosed => True
  | EvQuery r d =>
      d = domain /\ Effects.timeout r = timeout /\ lifetime r = timeout /\
      exists ip, nameservers r = [ip]
  | EvPrint (Text _) => True
  | EvPrint _ => False
  | EvSleep => False
  end.

(** The attempts of [main] in the two source files *)
Definition probe_of (env_at : Z -> Env) (args : Args) (i : Z)
    : M ProbeOutcome :=
  Probe.test_dns_latency (env_at i) (dns args) (domain args)
    (Runner.timeout args) 1.
Definition probe_000_of (env_at : Z -> Env) (args : Args) (i : Z)
    : M ProbeOutcome :=
  Part000.test_dns_latency (env_at i) (dns args) (domain args)
    (Runner.timeout args) 1.

(** The lines of one iteration around the attempt: lines 119 and 129/131 *)
Definition progress_line (i : Z) : Event :=
  EvPrint (Text ("第" ++ str_of_Z (i + 1) ++ "次测试...")).
Definition result_line (o : ProbeOutcome) : Event :=
  match o with
  | Success result => EvPrint (SuccessLine result)
  | Failure result => EvPrint (Text ("失败，原因: " ++ result))
  end.

(** The first lines of the summary, up to the success rate: lines
    138-143 *)
Definition summary_head (count : Z) (st : LoopState) (rate : Q) : list Event :=
  [EvPrint (Text rule);
   EvPrint (Text "=== 测试结果汇总 ===");
   EvPrint (Text ("总测试次数: " ++ str_of_Z count));
   EvPrint (Text ("成功次数: " ++ str_of_Z (success_count st)));
   EvPrint (Text ("失败次数: " ++ str_of_Z (count - success_count st)));
   EvPrint (RateLine (rate * 100)%Q)].

End Spec.

(** * Properties *)

(** ** Strings and parsing *)

Section StringFacts.
Import Probe.

Example py_int_53 : py_int "53" = Ok 53.
Proof. reflexivity. Qed.

Example py_int_spaces : py_int " -1_000 " = Ok (-1000).
Proof. reflexivity. Qed.

Example py_int_abc : returns (py_int "abc") = false.
Proof. reflexivity. Qed.

(** Decimal digits and white space beyond ASCII are read as such. *)
Example py_int_beyond_ascii :
  py_int "٥٣" = Ok 53 /\ py_int "５３" = Ok 53 /\
  py_int ("53" ++ String (ascii_of_nat 194) (String (ascii_of_nat 160) "")) =
    Ok 53.
Proof. repeat split; vm_compute; reflexivity. Qed.

(** The separators U+001C to U+001F are white space for [str.strip] and
    not for [int]. *)
Example py_int_separator :
  py_int (String (ascii_of_nat 28) "53") =
    Raise (mkExn ValueError
             "invalid literal for int() with base 10: '\x1c53'").
Proof. vm_compute. reflexivity. Qed.

Example py_int_digit_limit :
  py_int (string_of_list_ascii (repeat "1"%char 4301)) =
    Raise (mkExn ValueError
             "Exceeds the limit (4300 digits) for integer string conversion: value has 4301 digits; use sys.set_int_max_str_digits() to increase the limit").
Proof. vm_compute. reflexivity. Qed.

Example str_of_Z_samples :
  str_of_Z 53 = "53" /\ str_of_Z 0 = "0" /\ str_of_Z (-7) = "-7".
Proof. repeat split; reflexivity. Qed.

Lemma str_in_colon_cons (c : ascii) (s : string) :
  str_in ":" (String c s) = if Ascii.eqb c ":" then true else str_in ":" s.
Proof.
  cbn [str_in prefix].
  destruct (ascii_dec ":" c) as [<- | Hne].
  - rewrite Ascii.eqb_refl. destruct s; reflexivity.
  - destruct (Ascii.eqb_spec c ":") as [-> | _]; [contradiction | reflexivity].
Qed.

Lemma split_colon_none (s : string) :
  split_colon s = None <-> str_in ":" s = false.
Proof.
  induction s as [| c s IH].
  - split; reflexivity.
  - rewrite str_in_colon_cons. cbn [split_colon].
    destruct (Ascii.eqb c ":").
    + split; discriminate.
    + destruct (split_colon s) as [[before after] |].
      * split; [discriminate |].
        intros H. apply IH in H. discriminate.
      * split; [intros _; apply IH; reflexivity | reflexivity].
Qed.

Lemma split_colon_some (s before after : string) :
  split_colon s = Some (before, after) ->
  s = before ++ ":" ++ after /\ str_in ":" before = false.
Proof.
  revert before after.
  induction s as [| c s IH]; intros before after H; cbn [split_colon] in H.
  - discriminate.
  - destruct (Ascii.eqb_spec c ":") as [-> | Hne].
    + injection H as <- <-. split; reflexivity.
    + destruct (split_colon s) as [[b a] |]; [| discriminate].
      injection H as <- <-.
      destruct (IH b a eq_refl) as [-> Hb].
      split; [reflexivity |].
      rewrite str_in_colon_cons.
      destruct (Ascii.eqb_spec c ":"); [contradiction | exact Hb].
Qed.

Lemma str_in_colon_true (s : string) :
  str_in ":" s = true -> exists before after, split_colon s = Some (before, after).
Proof.
  intros H. destruct (split_colon s) as [[b a] |] eqn:E.
  - eauto.
  - apply split_colon_none in E. congruence.
Qed.

End StringFacts.

(** ** Sequencing *)

Section Sequencing.

Lemma outcome_bind {A B : Type} (m : M A) (k : A -> M B) :
  outcome (bind m k) =
  match outcome m with
  | Ok a => outcome (k a)
  | Raise e => Raise e
  end.
Proof.
  destruct m as [t [a | e]]; cbn; [| reflexivity].
  destruct (k a); reflexivity.
Qed.

End Sequencing.

(** ** The server spec: host part and port *)

Section ServerSpec.
Import Probe Spec.

Example parse_ip_and_port :
  parse_server_spec "203.0.113.5:5353" = Ok ("203.0.113.5", 5353).
Proof. reflexivity. Qed.

Example parse_ip_only : parse_server_spec "203.0.113.5" = Ok ("203.0.113.5", 53).
Proof. reflexivity. Qed.

(** Only the first colon separates: what follows it is the port segment. *)
Example parse_two_colons : returns (parse_server_spec "::1") = false.
Proof. reflexivity. Qed.

Lemma parse_server_spec_no_colon (dns_server : string) :
  str_in ":" dns_server = false ->
  parse_server_spec dns_server = Ok (dns_server, 53).
Proof.
  intros H. apply split_colon_none in H.
  unfold parse_server_spec. rewrite H. reflexivity.
Qed.

Lemma parse_server_spec_colon (dns_server : string) :
  str_in ":" dns_server = true ->
  exists server_part port_part,
    dns_server = server_part ++ ":" ++ port_part /\
    str_in ":" server_part = false /\
    parse_server_spec dns_server =
      match py_int port_part with
      | Ok port => Ok (server_part, port)
      | Raise e => Raise e
      end.
Proof.
  intros H. destruct (str_in_colon_true _ H) as (before & after & E).
  exists before, after.
  destruct (split_colon_some _ _ _ E) as [Hs Hb].
  repeat split; [exact Hs | exact Hb |].
  unfold parse_server_spec. rewrite E. reflexivity.
Qed.

(** *** [int] reads decimal numerals *)

Lemma uint_value_of_uint_acc (d : Decimal.uint) :
  forall acc : positive,
    Z.pos (Pos.of_uint_acc d acc) = uint_value (Z.pos acc) d.
Proof.
  induction d; intros acc; cbn [Pos.of_uint_acc uint_value];
    try reflexivity; rewrite IHd; f_equal; lia.
Qed.

Lemma uint_value_of_uint (d : Decimal.uint) :
  Z.of_N (Pos.of_uint d) = uint_value 0 d.
Proof.
  induction d; cbn [Pos.of_uint uint_value]; try reflexivity;
    try exact IHd; cbn [Z.of_N]; apply uint_value_of_uint_acc.
Qed.

Lemma digit_val_cases (c : ascii) (rest : string) (d : Z) :
  digit_val c = Some d ->
  is_space c = false /\ Ascii.eqb c "+" = false /\ Ascii.eqb c "-" = false /\
  (N_of_ascii c <? 0x80)%N = true.
Proof.
  destruct c as [[] [] [] [] [] [] [] []]; cbn; intros H;
    try discriminate; repeat split; reflexivity.
Qed.

Ltac numeral_digit :=
  match goal with
  | |- context [digit_val ?c] =>
      let v := eval vm_compute in (digit_val c) in
      change (digit_val c) with v
  end.

Lemma scan_numeral (d : Decimal.uint) :
  forall (prev : Prev) (count value : Z),
    d <> Decimal.Nil \/ prev <> AfterUnderscore ->
    scan prev count value (NilEmpty.string_of_uint d) =
      Some (count + Z.of_nat (String.length (NilEmpty.string_of_uint d)),
            uint_value value d, EmptyString).
Proof.
  induction d; intros prev count value H;
    cbn [NilEmpty.string_of_uint uint_value scan String.length];
    try (numeral_digit; cbn iota; rewrite IHd by (right; discriminate);
         do 2 f_equal; f_equal; lia).
  destruct H as [H | H]; [contradiction |].
  rewrite Z.add_0_r. destruct prev; [reflexivity .. | contradiction].
Qed.

Lemma is_ascii_numeral (d : Decimal.uint) :
  is_ascii (NilEmpty.string_of_uint d) = true.
Proof.
  unfold is_ascii. induction d; cbn [NilEmpty.string_of_uint
    list_ascii_of_string forallb]; try reflexivity; rewrite IHd; reflexivity.
Qed.

Lemma long_from_string_numeral (d : Decimal.uint) :
  d <> Decimal.Nil ->
  (String.length (NilEmpty.string_of_uint d) <= 4300)%nat ->
  long_from_string (NilEmpty.string_of_uint d) = Value (uint_value 0 d) /\
  long_from_string (String "-" (NilEmpty.string_of_uint d)) =
    Value (- uint_value 0 d).
Proof.
  intros Hd Hlen.
  pose proof (scan_numeral d AtStart 0 0 (or_introl Hd)) as Hs.
  assert (Hc : (max_str_digits
                <? 0 + Z.of_nat (String.length (NilEmpty.string_of_uint d)))
               = false).
  { unfold max_str_digits. apply Z.ltb_ge. lia. }
  assert (Hz : (0 + Z.of_nat (String.length (NilEmpty.string_of_uint d))
                =? 0) = false).
  { apply Z.eqb_neq. destruct d; try contradiction; cbn; lia. }
  split.
  - unfold long_from_string.
    destruct d; try contradiction;
      cbn [NilEmpty.string_of_uint lstrip] in *;
      (change (is_space _) with false; cbn iota);
      cbn [split_sign]; (change (Ascii.eqb _ "+") with false);
      (change (Ascii.eqb _ "-") with false); cbn iota;
      rewrite Hs, Hc, Hz; cbn [lstrip]; f_equal; lia.
  - unfold long_from_string. cbn [lstrip].
    change (is_space "-") with false. cbn iota.
    cbn [split_sign]. change (Ascii.eqb "-" "+") with false.
    change (Ascii.eqb "-" "-") with true. cbn iota.
    rewrite Hs, Hc, Hz. cbn [lstrip]. f_equal; lia.
Qed.

Lemma py_int_numeral (d : Decimal.uint) :
  d <> Decimal.Nil ->
  (String.length (NilEmpty.string_of_uint d) <= 4300)%nat ->
  py_int (NilEmpty.string_of_uint d) = Ok (uint_value 0 d) /\
  py_int (String "-" (NilEmpty.string_of_uint d)) = Ok (- uint_value 0 d).
Proof.
  intros Hd Hlen.
  destruct (long_from_string_numeral d Hd Hlen) as [Hp Hm].
  unfold py_int, to_ascii. split.
  - rewrite is_ascii_numeral, Hp. reflexivity.
  - replace (is_ascii (String "-" (NilEmpty.string_of_uint d))) with true.
    + rewrite Hm. reflexivity.
    + symmetry. unfold is_ascii. cbn [list_ascii_of_string forallb].
      apply (is_ascii_numeral d).
Qed.

(** [int(str(n)) = n] for every [n] written with at most 4300 digits *)
Lemma py_int_str_of_Z (n : Z) :
  (decimal_digits n <= 4300)%nat -> py_int (str_of_Z n) = Ok n.
Proof.
  unfold decimal_digits.
  destruct n as [| p | p]; [reflexivity | |];
    unfold str_of_Z; cbn [Z.abs Z.to_int NilZero.string_of_int];
    pose proof (DecimalPos.Unsigned.to_uint_nonnil p) as Hn;
    replace (NilZero.string_of_uint (Pos.to_uint p))
      with (NilEmpty.string_of_uint (Pos.to_uint p))
      by (destruct (Pos.to_uint p); [contradiction | reflexivity ..]);
    intros Hlen;
    destruct (py_int_numeral _ Hn Hlen) as [Hp Hm].
  - rewrite Hp, <- uint_value_of_uint, DecimalPos.Unsigned.of_to. reflexivity.
  - rewrite Hm, <- uint_value_of_uint, DecimalPos.Unsigned.of_to. reflexivity.
Qed.

Lemma split_colon_app (host rest : string) :
  str_in ":" host = false ->
  split_colon (host ++ ":" ++ rest) = Some (host, rest).
Proof.
  induction host as [| c host IH]; intros H; [reflexivity |].
  rewrite str_in_colon_cons in H. cbn [append split_colon].
  destruct (Ascii.eqb c ":"); [discriminate |].
  change (host ++ String ":" rest) with (host ++ ":" ++ rest).
  rewrite (IH H). reflexivity.
Qed.

Lemma parse_host_and_number (host : string) (n : Z) :
  str_in ":" host = false ->
  (decimal_digits n <= 4300)%nat ->
  parse_server_spec (host ++ ":" ++ str_of_Z n) = Ok (host, n).
Proof.
  intros Hhost Hn. unfold parse_server_spec.
  rewrite (split_colon_app host (str_of_Z n) Hhost), (py_int_str_of_Z n Hn).
  reflexivity.
Qed.

(** *** Text that [int] rejects *)

Lemma is_junk_spec (c : ascii) :
  is_junk c = true ->
  is_space c = false /\ digit_val c = None /\ Ascii.eqb c "_" = false /\
  Ascii.eqb c "+" = false /\ Ascii.eqb c "-" = false.
Proof.
  unfold is_junk.
  destruct (is_space c), (digit_val c), (Ascii.eqb c "_"), (Ascii.eqb c "+"),
    (Ascii.eqb c "-"); cbn; intros H; try discriminate H;
    repeat split; reflexivity.
Qed.

Lemma has_junk_cons (c : ascii) (s : string) :
  has_junk (String c s) = (is_junk c || has_junk s)%bool.
Proof. reflexivity. Qed.

Lemma has_ascii_junk_cons (c : ascii) (s : string) :
  has_ascii_junk (String c s) = (is_ascii_junk c || has_ascii_junk s)%bool.
Proof. reflexivity. Qed.

Lemma lstrip_junk (s : string) :
  has_junk s = true -> has_junk (lstrip s) = true.
Proof.
  induction s as [| c s IH]; intros H; [exact H |].
  cbn [lstrip]. destruct (is_space c) eqn:E; [| exact H].
  rewrite has_junk_cons in H. destruct (is_junk c) eqn:J.
  - apply is_junk_spec in J. destruct J as [J _]. congruence.
  - apply IH. exact H.
Qed.

Lemma split_sign_junk (s : string) :
  has_junk s = true -> has_junk (snd (split_sign s)) = true.
Proof.
  destruct s as [| c s]; intros H; [exact H |].
  cbn [split_sign]. rewrite has_junk_cons in H.
  destruct (is_junk c) eqn:J.
  - destruct (is_junk_spec c J) as (_ & _ & _ & Hp & Hm).
    rewrite Hp, Hm. cbn [snd]. rewrite has_junk_cons, J. reflexivity.
  - destruct (Ascii.eqb c "+"); [exact H |].
    destruct (Ascii.eqb c "-"); [exact H |].
    cbn [snd]. rewrite has_junk_cons, J. exact H.
Qed.

Lemma scan_junk (s : string) :
  forall (prev : Prev) (count value count' value' : Z) (rest : string),
    scan prev count value s = Some (count', value', rest) ->
    has_junk s = true -> has_junk rest = true.
Proof.
  induction s as [| c s IH]; intros prev count value count' value' rest H J;
    [discriminate J |].
  cbn [scan] in H. rewrite has_junk_cons in J.
  destruct (is_junk c) eqn:Jc.
  - destruct (is_junk_spec c Jc) as (_ & Hd & Hu & _).
    rewrite Hd, Hu in H.
    destruct prev; inversion H; subst; rewrite has_junk_cons, Jc; reflexivity.
  - cbn [orb] in J. destruct (digit_val c).
    + exact (IH _ _ _ _ _ _ H J).
    + destruct (Ascii.eqb c "_").
      * destruct prev; try discriminate H. exact (IH _ _ _ _ _ _ H J).
      * destruct prev; inversion H; subst; rewrite has_junk_cons, J;
          apply orb_true_r.
Qed.

Lemma long_from_string_junk (s : string) :
  has_junk s = true ->
  long_from_string s = Invalid \/
  exists count, long_from_string s = TooManyDigits count.
Proof.
  intros H. unfold long_from_string.
  pose proof (split_sign_junk _ (lstrip_junk _ H)) as Ht.
  destruct (split_sign (lstrip s)) as [sign t]. cbn [snd] in Ht.
  destruct (scan AtStart 0 0 t) as [[[count value] rest] |] eqn:Es;
    [| left; reflexivity].
  destruct (max_str_digits <? count); [right; eauto |].
  destruct (count =? 0); [left; reflexivity |].
  pose proof (lstrip_junk _ (scan_junk _ _ _ _ _ _ _ Es Ht)) as Hr.
  destruct (lstrip rest); [discriminate Hr | left; reflexivity].
Qed.

Lemma transform_junk (l : list N) :
  (exists c, In c l /\ junk_point c) -> has_junk (transform l) = true.
Proof.
  induction l as [| a l IH]; intros (c & Hin & Hlt & Hj);
    [destruct Hin |].
  assert (Hrest : In c l -> has_junk (transform l) = true)
    by (intros Hl; apply IH; exists c; repeat split; assumption).
  assert (Hdel : a = c -> (a <? 127)%N = false -> a = 127%N)
    by (intros -> E; apply N.ltb_ge in E; lia).
  cbn [transform]. destruct (a <? 127)%N eqn:E1.
  - rewrite has_junk_cons. destruct Hin as [-> | Hin].
    + rewrite Hj. reflexivity.
    + rewrite (Hrest Hin). apply orb_true_r.
  - destruct (in_ranges space_ranges a) eqn:E2.
    + rewrite has_junk_cons. destruct Hin as [Heq | Hin].
      * rewrite (Hdel Heq eq_refl) in E2. vm_compute in E2. discriminate E2.
      * rewrite (Hrest Hin). apply orb_true_r.
    + destruct (decimal_value a) as [d |] eqn:E3; [| reflexivity].
      rewrite has_junk_cons. destruct Hin as [Heq | Hin].
      * rewrite (Hdel Heq eq_refl) in E3. vm_compute in E3. discriminate E3.
      * rewrite (Hrest Hin). apply orb_true_r.
Qed.

Lemma continuation_not_junk (lo hi : N) (b : ascii) :
  in_range lo hi (N_of_ascii b) = true -> (0x80 <= lo)%N ->
  is_ascii_junk b = false.
Proof.
  unfold in_range, is_ascii_junk. intros H Hlo.
  apply andb_true_iff in H. destruct H as [H _]. apply N.leb_le in H.
  replace (N_of_ascii b <? 0x80)%N with false; [apply andb_false_r |].
  symmetry. apply N.ltb_ge. lia.
Qed.

(** One step of decoding drops bytes of a multi-byte sequence only, and
    yields an ASCII byte as its own code point. *)
Lemma utf8_next_junk (b0 : ascii) (r0 : string) (c : N) (rest : string) :
  utf8_next b0 r0 = (c, rest) ->
  (String.length rest <= String.length r0)%nat /\
  (has_ascii_junk r0 = true -> has_ascii_junk rest = true) /\
  (is_ascii_junk b0 = true -> c = N_of_ascii b0).
Proof.
  unfold utf8_next. intros H.
  destruct (N_of_ascii b0 <? 0x80)%N eqn:E0.
  - injection H as <- <-. repeat split; auto.
  - assert (Hb0 : is_ascii_junk b0 = true -> c = N_of_ascii b0).
    { unfold is_ascii_junk. rewrite E0, andb_false_r. discriminate. }
    assert (Hkeep : forall x : N,
               (x, r0) = (c, rest) ->
               (String.length rest <= String.length r0)%nat /\
               (has_ascii_junk r0 = true -> has_ascii_junk rest = true) /\
               (is_ascii_junk b0 = true -> c = N_of_ascii b0)).
    { intros x Hx. injection Hx as _ <-. repeat split; auto. }
    destruct (in_range 0xC2 0xDF (N_of_ascii b0)).
    { destruct r0 as [| b1 r1]; [exact (Hkeep _ H) |].
      destruct (continues (N_of_ascii b1)) eqn:C1; [| exact (Hkeep _ H)].
      injection H as _ <-. repeat split; [cbn; lia | | exact Hb0].
      rewrite has_ascii_junk_cons,
        (continuation_not_junk _ _ b1 C1) by lia.
      exact (fun J => J). }
    destruct (in_range 0xE0 0xEF (N_of_ascii b0)).
    { destruct r0 as [| b1 [| b2 r2]]; try exact (Hkeep _ H).
      match type of H with
      | (if (?a && ?b)%bool then _ else _) = _ =>
          destruct a eqn:C1; [destruct b eqn:C2 |]
      end; cbn [andb] in H; try exact (Hkeep _ H).
      injection H as _ <-. repeat split; [cbn; lia | | exact Hb0].
      rewrite !has_ascii_junk_cons,
        (continuation_not_junk _ _ b1 C1),
        (continuation_not_junk _ _ b2 C2);
        [exact (fun J => J) | lia |].
      destruct (N_of_ascii b0 =? 0xE0)%N; lia. }
    destruct (in_range 0xF0 0xF4 (N_of_ascii b0)); [| exact (Hkeep _ H)].
    destruct r0 as [| b1 [| b2 [| b3 r3]]]; try exact (Hkeep _ H).
    match type of H with
    | (if (?a && ?b && ?d)%bool then _ else _) = _ =>
        destruct a eqn:C1; [destruct b eqn:C2; [destruct d eqn:C3 |] |]
    end; cbn [andb] in H; try exact (Hkeep _ H).
    injection H as _ <-. repeat split; [cbn; lia | | exact Hb0].
    rewrite !has_ascii_junk_cons,
      (continuation_not_junk _ _ b1 C1),
      (continuation_not_junk _ _ b2 C2),
      (continuation_not_junk _ _ b3 C3);
      [exact (fun J => J) | lia | lia |].
    destruct (N_of_ascii b0 =? 0xF0)%N; lia.
Qed.

Lemma decode_junk (fuel : nat) :
  forall s : string,
    (String.length s <= fuel)%nat -> has_ascii_junk s = true ->
    exists c, In c (decode_from fuel s) /\ junk_point c.
Proof.
  induction fuel as [| fuel IH]; intros [| b0 r0] Hlen J;
    try discriminate J; [cbn in Hlen; lia |].
  cbn [decode_from]. destruct (utf8_next b0 r0) as [c rest] eqn:E.
  destruct (utf8_next_junk _ _ _ _ E) as (Hl & Hr & Hc).
  rewrite has_ascii_junk_cons in J.
  destruct (is_ascii_junk b0) eqn:J0.
  - exists c. split; [left; reflexivity |].
    rewrite (Hc eq_refl). unfold is_ascii_junk in J0.
    apply andb_true_iff in J0. destruct J0 as [Hj Hlt].
    apply N.ltb_lt in Hlt. split; [exact Hlt |].
    rewrite ascii_N_embedding. exact Hj.
  - cbn [orb] in J. cbn [String.length] in Hlen.
    destruct (IH rest ltac:(lia) (Hr J)) as (c' & Hin & Hp).
    exists c'. split; [right; exact Hin | exact Hp].
Qed.

Lemma to_ascii_junk (s : string) :
  has_ascii_junk s = true -> has_junk (to_ascii s) = true.
Proof.
  intros J. unfold to_ascii. destruct (is_ascii s).
  - unfold has_ascii_junk in J. unfold has_junk.
    apply existsb_exists in J. destruct J as (c & Hin & Hc).
    apply existsb_exists. exists c. split; [exact Hin |].
    unfold is_ascii_junk in Hc. apply andb_true_iff in Hc. apply Hc.
  - apply transform_junk. apply decode_junk; [apply Nat.le_refl | exact J].
Qed.

(** [int] raises [ValueError] for a text that holds an ASCII character
    other than white space, a digit, an underscore and a sign. *)
Lemma py_int_junk (s : string) :
  has_ascii_junk s = true ->
  exists msg, py_int s = Raise (mkExn ValueError msg).
Proof.
  intros J. unfold py_int.
  destruct (long_from_string_junk _ (to_ascii_junk _ J)) as [-> | [count ->]];
    eauto.
Qed.

Lemma colon_is_junk (s : string) :
  str_in ":" s = true -> has_ascii_junk s = true.
Proof.
  induction s as [| c s IH]; intros H; [discriminate H |].
  rewrite str_in_colon_cons in H. rewrite has_ascii_junk_cons.
  destruct (Ascii.eqb_spec c ":") as [-> | _]; [reflexivity |].
  rewrite (IH H). apply orb_true_r.
Qed.

Lemma parse_server_spec_junk (dns_server server_part port_part : string) :
  split_colon dns_server = Some (server_part, port_part) ->
  has_ascii_junk port_part = true ->
  exists msg, parse_server_spec dns_server = Raise (mkExn ValueError msg).
Proof.
  intros Hs J. unfold parse_server_spec. rewrite Hs.
  destruct (py_int_junk _ J) as [msg ->]. eauto.
Qed.

Lemma split_colon_unique (server_part port_part a b : string) :
  server_part ++ ":" ++ port_part = a ++ ":" ++ b ->
  str_in ":" server_part = false -> str_in ":" a = false ->
  server_part = a /\ port_part = b.
Proof.
  intros E Hs Ha.
  pose proof (split_colon_app server_part port_part Hs) as H1.
  rewrite E, (split_colon_app a b Ha) in H1.
  injection H1 as -> ->. split; reflexivity.
Qed.

(** C5.  The resolved port is 53 when the server spec has no colon.
    Otherwise the spec is [server_part ++ ":" ++ port_part] with no colon in
    [server_part] (the split is at the first colon) and the resolved port is
    [int(port_part)]: the value of the parse when it returns one, its
    exception otherwise.  The parse is that of Python: a port segment that
    is the decimal writing of an integer [n] of at most 4300 digits gives
    the port [n], and a port segment that holds an ASCII character other
    than white space, a digit, an underscore and a sign gives a
    [ValueError]. *)
Theorem resolved_port_default_or_parsed (dns_server : string) :
  (str_in ":" dns_server = false ->
   parse_server_spec dns_server = Ok (dns_server, 53)) /\
  (str_in ":" dns_server = true ->
   exists server_part port_part,
     dns_server = server_part ++ ":" ++ port_part /\
     str_in ":" server_part = false /\
     parse_server_spec dns_server =
       match py_int port_part with
       | Ok port => Ok (server_part, port)
       | Raise e => Raise e
       end /\
     (forall n : Z,
        port_part = str_of_Z n -> (decimal_digits n <= 4300)%nat ->
        parse_server_spec dns_server = Ok (server_part, n)) /\
     (has_ascii_junk port_part = true ->
      exists msg,
        parse_server_spec dns_server = Raise (mkExn ValueError msg))).
Proof.
  split.
  - apply parse_server_spec_no_colon.
  - intros H.
    destruct (parse_server_spec_colon _ H)
      as (server_part & port_part & Hs & Hb & Hp).
    exists server_part, port_part.
    repeat split; [exact Hs | exact Hb | exact Hp | |].
    + intros n -> Hn. rewrite Hs. apply parse_host_and_number; assumption.
    + intros J. apply (parse_server_spec_junk _ server_part port_part);
        [| exact J].
      rewrite Hs. apply split_colon_app. exact Hb.
Qed.

Lemma resolved_port_default_or_parsed_witness :
  parse_server_spec "203.0.113.5" = Ok ("203.0.113.5", 53) /\
  parse_server_spec "203.0.113.5:5353" = Ok ("203.0.113.5", 5353) /\
  exists msg,
    parse_server_spec "203.0.113.5:53a" = Raise (mkExn ValueError msg).
Proof.
  split; [| split].
  - apply (proj1 (resolved_port_default_or_parsed "203.0.113.5")).
    reflexivity.
  - destruct (proj2 (resolved_port_default_or_parsed "203.0.113.5:5353")
                eq_refl)
      as (server_part & port_part & Hs & Hb & _ & Hn & _).
    destruct (split_colon_unique server_part port_part "203.0.113.5" "5353"
                (eq_sym Hs) Hb eq_refl) as [Es Ep].
    rewrite <- Es. apply (Hn 5353); [exact Ep | vm_compute; lia].
  - destruct (proj2 (resolved_port_default_or_parsed "203.0.113.5:53a")
                eq_refl)
      as (server_part & port_part & Hs & Hb & _ & _ & Hj).
    destruct (split_colon_unique server_part port_part "203.0.113.5" "53a"
                (eq_sym Hs) Hb eq_refl) as [_ Ep].
    apply Hj. rewrite Ep. reflexivity.
Defined.

(** C9, as stated, at ["8.8.8.8:70000"], ["8.8.8.8:0"] and ["8.8.8.8:-1"]:
    the port segment parses and the resolved port is outside 1-65535. *)
Lemma resolved_port_out_of_range :
  parse_server_spec "8.8.8.8:70000" = Ok ("8.8.8.8", 70000) /\
  (70000 <=? 65535) = false /\
  parse_server_spec "8.8.8.8:0" = Ok ("8.8.8.8", 0) /\
  (1 <=? 0) = false /\
  parse_server_spec "8.8.8.8:-1" = Ok ("8.8.8.8", -1).
Proof. repeat split; reflexivity. Qed.

(** C9, amended.  No range is enforced on the port.  A server spec made of
    a host without a colon, a colon and the decimal writing of an integer
    [n] of at most 4300 digits resolves to the port [n], whether [n] lies
    in 1-65535 or not; more generally the resolved port of a spec with a
    colon is the integer its port segment parses to. *)
Theorem resolved_port_is_parsed_integer :
  (forall (host : string) (n : Z),
     str_in ":" host = false ->
     (decimal_digits n <= 4300)%nat ->
     parse_server_spec (host ++ ":" ++ str_of_Z n) = Ok (host, n)) /\
  (forall (dns_server server_part port_part : string) (n : Z),
     split_colon dns_server = Some (server_part, port_part) ->
     py_int port_part = Ok n ->
     parse_server_spec dns_server = Ok (server_part, n)).
Proof.
  split.
  - apply parse_host_and_number.
  - intros dns_server server_part port_part n Hsplit Hint.
    unfold parse_server_spec. rewrite Hsplit, Hint. reflexivity.
Qed.

Lemma resolved_port_is_parsed_integer_witness :
  parse_server_spec ("dns.example" ++ ":" ++ str_of_Z (-1)) =
    Ok ("dns.example", -1) /\
  parse_server_spec "8.8.8.8: 70_000 " = Ok ("8.8.8.8", 70000).
Proof.
  destruct resolved_port_is_parsed_integer as [Hany Hparsed].
  split.
  - apply (Hany "dns.example" (-1)); [reflexivity | vm_compute; lia].
  - apply (Hparsed "8.8.8.8: 70_000 " "8.8.8.8" " 70_000 " 70000);
      reflexivity.
Defined.

End ServerSpec.
(** ** The port check *)

Section PortCheck.
Import Probe Spec.

Variable env : Env.
Variables (ip : string) (port timeout : Z).

Let diagnostic (e : Exn) : Event :=
  EvPrint (Text ("  端口连接测试异常: " ++ exn_msg e)).

(** The five ways through [test_port_connectivity], by the first call that
    raises. *)
Lemma test_port_connectivity_cases :
  (exists e, socket_new env = Raise e /\
     test_port_connectivity env ip port timeout = ([diagnostic e], Ok false))
  \/
  (exists e, socket_new env = Ok tt /\ settimeout env timeout = Raise e /\
     test_port_connectivity env ip port timeout =
       ([EvSocketCreated; EvSetTimeout timeout; diagnostic e], Ok false))
  \/
  (exists e, socket_new env = Ok tt /\ settimeout env timeout = Ok tt /\
     connect_ex env timeout ip port = Raise e /\
     test_port_connectivity env ip port timeout =
       ([EvSocketCreated; EvSetTimeout timeout; EvConnectEx ip port;
         diagnostic e], Ok false))
  \/
  (exists result e, socket_new env = Ok tt /\ settimeout env timeout = Ok tt /\
     connect_ex env timeout ip port = Ok result /\ close env = Raise e /\
     test_port_connectivity env ip port timeout =
       ([EvSocketCreated; EvSetTimeout timeout; EvConnectEx ip port;
         EvSocketClosed; diagnostic e], Ok false))
  \/
  (exists result, socket_new env = Ok tt /\ settimeout env timeout = Ok tt /\
     connect_ex env timeout ip port = Ok result /\ close env = Ok tt /\
     test_port_connectivity env ip port timeout =
       ([EvSocketCreated; EvSetTimeout timeout; EvConnectEx ip port;
         EvSocketClosed], Ok (result =? 0))).
Proof.
  unfold test_port_connectivity, diagnostic.
  destruct (socket_new env) as [[] | e0]; [| left; eauto].
  right.
  destruct (settimeout env timeout) as [[] | e1]; [| left; eauto].
  right.
  destruct (connect_ex env timeout ip port) as [r | e2]; [| left; eauto].
  right.
  destruct (close env) as [[] | e3]; [right | left]; eauto 8.
Qed.

Lemma test_port_connectivity_returns :
  exists b, outcome (test_port_connectivity env ip port timeout) = Ok b.
Proof.
  destruct test_port_connectivity_cases
    as [(e & _ & ->) | [(e & _ & _ & ->) | [(e & _ & _ & _ & ->)
       | [(r & e & _ & _ & _ & _ & ->) | (r & _ & _ & _ & _ & ->)]]]];
    cbn; eauto.
Qed.

Lemma test_port_connectivity_no_query :
  queries_issued (trace (test_port_connectivity env ip port timeout)) = 0%nat.
Proof.
  destruct test_port_connectivity_cases
    as [(e & _ & ->) | [(e & _ & _ & ->) | [(e & _ & _ & _ & ->)
       | [(r & e & _ & _ & _ & _ & ->) | (r & _ & _ & _ & _ & ->)]]]];
    reflexivity.
Qed.

(** C7.  [test_port_connectivity] always returns a boolean, never raises;
    the boolean is [True] exactly when the socket was created, configured,
    connected with result 0 and closed without any exception, so every
    failure of any of these calls gives [False]; and whenever the
    diagnostic line was printed the result is [False], whatever the
    message. *)
Theorem test_port_connectivity_verdict :
  exists b,
    outcome (test_port_connectivity env ip port timeout) = Ok b /\
    (b = true <-> connection_completed env ip port timeout) /\
    (forall text,
       In (EvPrint (Text text))
         (trace (test_port_connectivity env ip port timeout)) ->
       b = false).
Proof.
  unfold connection_completed.
  destruct test_port_connectivity_cases
    as [(e & H0 & ->) | [(e & H0 & H1 & ->) | [(e & H0 & H1 & H2 & ->)
       | [(r & e & H0 & H1 & H2 & H3 & ->) | (r & H0 & H1 & H2 & H3 & ->)]]]];
    cbn [outcome trace fst snd].
  - exists false. repeat split; try discriminate.
    intros (A & _). congruence.
  - exists false. repeat split; try discriminate.
    intros (_ & A & _). congruence.
  - exists false. repeat split; try discriminate.
    intros (_ & _ & A & _). congruence.
  - exists false. repeat split; try discriminate.
    intros (_ & _ & _ & A). congruence.
  - exists (r =? 0). split; [reflexivity |]. split.
    + split.
      * intros Hr. apply Z.eqb_eq in Hr. subst r. auto.
      * intros (_ & _ & A & _). rewrite H2 in A. injection A as ->. reflexivity.
    + intros text Hin. cbn in Hin.
      repeat (destruct Hin as [Hin | Hin]; [discriminate |]). contradiction.
Qed.

End PortCheck.

Section SocketRelease.
Import Probe Spec Samples.

(** When the socket is made and then [settimeout] or [connect_ex] raises,
    the handler returns without closing it. *)
Lemma socket_left_open_on_exception (env : Env) (ip : string)
    (port timeout : Z) (e : Exn) :
  socket_new env = Ok tt ->
  settimeout env timeout = Raise e \/
  (settimeout env timeout = Ok tt /\ connect_ex env timeout ip port = Raise e) ->
  outcome (test_port_connectivity env ip port timeout) = Ok false /\
  open_sockets (trace (test_port_connectivity env ip port timeout)) = 1 /\
  ~ In EvSocketClosed (trace (test_port_connectivity env ip port timeout)).
Proof.
  intros H0 H. unfold test_port_connectivity. rewrite H0.
  destruct H as [H1 | [H1 H2]].
  - rewrite H1. cbn. repeat split; try reflexivity.
    intros Hin. repeat (destruct Hin as [Hin | Hin]; [discriminate |]).
    contradiction.
  - rewrite H1, H2. cbn. repeat split; try reflexivity.
    intros Hin. repeat (destruct Hin as [Hin | Hin]; [discriminate |]).
    contradiction.
Qed.

(** On the paths without an exception before [sock.close()], the socket
    is closed. *)
Lemma socket_closed_without_exception (env : Env) (ip : string)
    (port timeout result : Z) :
  socket_new env = Ok tt ->
  settimeout env timeout = Ok tt ->
  connect_ex env timeout ip port = Ok result ->
  open_sockets (trace (test_port_connectivity env ip port timeout)) = 0.
Proof.
  intros H0 H1 H2. unfold test_port_connectivity. rewrite H0, H1, H2.
  destruct (close env) as [[] | e]; reflexivity.
Qed.

(** C2, at the target [("dns.invalid", 53)] that the address resolver's
    last fall-back hands over: [connect_ex] raises on the unresolvable
    name, the handler prints and returns [False], and the socket made on
    line 11 is never closed. *)
Theorem socket_not_released_when_connect_raises :
  test_port_connectivity env_unreachable "dns.invalid" 53 2 =
    ([EvSocketCreated; EvSetTimeout 2; EvConnectEx "dns.invalid" 53;
      EvPrint (Text "  端口连接测试异常: [Errno -2] Name or service not known")],
     Ok false) /\
  open_sockets
    (trace (test_port_connectivity env_unreachable "dns.invalid" 53 2)) = 1.
Proof. split; reflexivity. Qed.

Lemma socket_closed_without_exception_witness :
  open_sockets
    (trace (test_port_connectivity env_reachable "8.8.8.8" 53 2)) = 0.
Proof.
  apply (socket_closed_without_exception env_reachable "8.8.8.8" 53 2 0);
    reflexivity.
Defined.

End SocketRelease.

(** ** Address resolution *)

Section AddressResolution.
Import Probe Spec Samples.

Lemma resolve_with_system_trace (env : Env) (server_part : string)
    (timeout : Z) :
  trace (resolve_with_system env server_part timeout) =
    [EvResolveHost (system_resolver env timeout) server_part].
Proof.
  unfold resolve_with_system, system_resolver.
  destruct (resolve env _ server_part) as [[| a answers] | e]; reflexivity.
Qed.

(** First tier: the platform's answer is taken as it is. *)
Lemma resolve_ip_first_tier (env : Env) (server_part ip : string)
    (timeout : Z) :
  gethostbyname env server_part = Ok ip ->
  resolve_ip env server_part timeout = ([EvGetHostByName server_part], Ok ip).
Proof. intros H. unfold resolve_ip, call. rewrite H. reflexivity. Qed.

(** An exception of the first tier that is not a [gaierror] leaves
    [resolve_ip]: the second tier is not tried. *)
Lemma resolve_ip_other_exception (env : Env) (server_part : string)
    (timeout : Z) (e : Exn) :
  gethostbyname env server_part = Raise e ->
  is_gaierror e = false ->
  resolve_ip env server_part timeout =
    ([EvGetHostByName server_part], Raise e).
Proof.
  intros H Hg. unfold resolve_ip, call. rewrite H. cbn. rewrite Hg.
  reflexivity.
Qed.

(** After a [gaierror] the second tier decides; if it raises, the host
    part itself is the address. *)
Lemma resolve_ip_after_gaierror (env : Env) (server_part : string)
    (timeout : Z) (e : Exn) :
  gethostbyname env server_part = Raise e ->
  is_gaierror e = true ->
  resolve_ip env server_part timeout =
    ([EvGetHostByName server_part;
      EvResolveHost (system_resolver env timeout) server_part],
     Ok match outcome (resolve_with_system env server_part timeout) with
        | Ok ip => ip
        | Raise _ => server_part
        end).
Proof.
  intros H Hg. unfold resolve_ip, call. rewrite H.
  unfold try_except_only. rewrite Hg.
  pose proof (resolve_with_system_trace env server_part timeout) as Ht.
  destruct (resolve_with_system env server_part timeout) as [t [ip | e']];
    cbn in *; subst t; reflexivity.
Qed.

Lemma resolve_ip_no_query (env : Env) (server_part : string) (timeout : Z) :
  queries_issued (trace (resolve_ip env server_part timeout)) = 0%nat.
Proof.
  destruct (gethostbyname env server_part) as [ip | e] eqn:H.
  - rewrite (resolve_ip_first_tier _ _ _ _ H). reflexivity.
  - destruct (is_gaierror e) eqn:Hg.
    + rewrite (resolve_ip_after_gaierror _ _ _ _ H Hg). reflexivity.
    + rewrite (resolve_ip_other_exception _ _ _ _ H Hg). reflexivity.
Qed.

End AddressResolution.

(** ** One attempt *)

Section Attempt.
Import Probe Spec Samples.

#[local] Arguments resolve_ip : simpl never.
#[local] Arguments test_port_connectivity : simpl never.

Lemma queries_issued_app (t1 t2 : list Event) :
  queries_issued (t1 ++ t2) = (queries_issued t1 + queries_issued t2)%nat.
Proof.
  induction t1 as [| ev t1 IH]; [reflexivity |].
  destruct ev; cbn; rewrite IH; reflexivity.
Qed.

(** The attempt stops where the server spec does not parse. *)
Lemma test_dns_latency_parse_raises (env : Env) (dns_server domain : string)
    (timeout retries : Z) (e : Exn) :
  parse_server_spec dns_server = Raise e ->
  test_dns_latency env dns_server domain timeout retries = ([], Raise e).
Proof. intros H. unfold test_dns_latency. rewrite H. reflexivity. Qed.

(** The attempt stops where the address resolution raises. *)
Lemma test_dns_latency_resolution_raises (env : Env)
    (dns_server domain server_part : string) (port timeout retries : Z)
    (e : Exn) :
  parse_server_spec dns_server = Ok (server_part, port) ->
  outcome (resolve_ip env server_part timeout) = Raise e ->
  test_dns_latency env dns_server domain timeout retries =
    (trace (resolve_ip env server_part timeout), Raise e).
Proof.
  intros Hp Hr. unfold test_dns_latency. rewrite Hp. cbn.
  destruct (resolve_ip env server_part timeout) as [t r].
  cbn in Hr. subst r. reflexivity.
Qed.

(** The attempt stops where the setter of [nameservers] refuses the
    address: line 55 is in no [try]. *)
Lemma test_dns_latency_store_raises (env : Env)
    (dns_server domain server_part ip : string) (port timeout retries : Z)
    (e : Exn) :
  parse_server_spec dns_server = Ok (server_part, port) ->
  outcome (resolve_ip env server_part timeout) = Ok ip ->
  check_nameservers env [ip] = Raise e ->
  exists port_open,
    outcome (test_port_connectivity env ip port 2) = Ok port_open /\
    test_dns_latency env dns_server domain timeout retries =
      ((trace (resolve_ip env server_part timeout)
        ++ trace (test_port_connectivity env ip port 2)
        ++ [EvPrint (Text (server_line ip port port_open))])%list,
       Raise e).
Proof.
  intros Hp Hr Hc.
  destruct (test_port_connectivity_returns env ip port 2) as [port_open Hb].
  exists port_open. split; [exact Hb |].
  unfold test_dns_latency, assign_nameservers. rewrite Hp. cbn.
  destruct (resolve_ip env server_part timeout) as [t r].
  cbn in Hr. subst r. cbn.
  destruct (test_port_connectivity env ip port 2) as [t' r'].
  cbn in Hb. subst r'. cbn. rewrite Hc. cbn.
  rewrite <- ?app_assoc. reflexivity.
Qed.

(** Once the target is resolved and stored the attempt runs to its end:
    port check, progress line, one query, and an outcome. *)
Lemma test_dns_latency_run (env : Env) (dns_server domain server_part ip : string)
    (port timeout retries : Z) :
  parse_server_spec dns_server = Ok (server_part, port) ->
  outcome (resolve_ip env server_part timeout) = Ok ip ->
  check_nameservers env [ip] = Ok tt ->
  exists port_open,
    outcome (test_port_connectivity env ip port 2) = Ok port_open /\
    test_dns_latency env dns_server domain timeout retries =
      ((trace (resolve_ip env server_part timeout)
        ++ trace (test_port_connectivity env ip port 2)
        ++ [EvPrint (Text (server_line ip port port_open));
            EvQuery (probe_resolver ip port timeout) domain])%list,
       Ok match resolve env (probe_resolver ip port timeout) domain with
          | Ok _ =>
              Success ((perf_counter env 1 - perf_counter env 0) * 1000)%Q
          | Raise e => Failure (full_error port_open port e)
          end).
Proof.
  intros Hp Hr Hc.
  destruct (test_port_connectivity_returns env ip port 2) as [port_open Hb].
  exists port_open. split; [exact Hb |].
  unfold test_dns_latency, assign_nameservers, probe_resolver.
  rewrite Hp. cbn.
  destruct (resolve_ip env server_part timeout) as [t r].
  cbn in Hr. subst r. cbn.
  destruct (test_port_connectivity env ip port 2) as [t' r'].
  cbn in Hb. subst r'. cbn. rewrite Hc. cbn.
  destruct (resolve env _ domain) as [answers | e]; cbn;
    rewrite <- ?app_assoc; reflexivity.
Qed.

(** What the first tier returns is stored without complaint. *)
Lemma first_tier_accepted (env : Env) (server_part ip : string)
    (timeout : Z) :
  gethostbyname env server_part = Ok ip ->
  outcome (resolve_ip env server_part timeout) = Ok ip /\
  check_nameservers env [ip] = Ok tt.
Proof.
  intros H. rewrite (resolve_ip_first_tier _ _ _ _ H).
  split; [reflexivity | exact (gethostbyname_accepted env _ _ H)].
Qed.

End Attempt.

Section AttemptClaims.
Import Probe Spec Samples Runner.

#[local] Arguments resolve_ip : simpl never.
#[local] Arguments test_port_connectivity : simpl never.

Lemma queries_issued_probe (env : Env) (dns_server domain : string)
    (timeout retries : Z) :
  queries_issued
    (trace (Probe.test_dns_latency env dns_server domain timeout retries)) =
  if returns (outcome (Probe.test_dns_latency env dns_server domain timeout retries))
  then 1%nat else 0%nat.
Proof.
  destruct (parse_server_spec dns_server) as [[server_part port] | e] eqn:Hp.
  - destruct (outcome (resolve_ip env server_part timeout)) as [ip | e] eqn:Hr.
    + destruct (check_nameservers env [ip]) as [[] | e] eqn:Hc.
      * destruct (test_dns_latency_run env dns_server domain server_part ip
                    port timeout retries Hp Hr Hc) as (port_open & _ & ->).
        cbn [trace outcome fst snd returns].
        rewrite !queries_issued_app, resolve_ip_no_query,
          test_port_connectivity_no_query.
        reflexivity.
      * destruct (test_dns_latency_store_raises env dns_server domain
                    server_part ip port timeout retries e Hp Hr Hc)
          as (port_open & _ & ->).
        cbn [trace outcome fst snd returns].
        rewrite !queries_issued_app, resolve_ip_no_query,
          test_port_connectivity_no_query.
        reflexivity.
    + rewrite (test_dns_latency_resolution_raises env dns_server domain
                 server_part port timeout retries e Hp Hr).
      cbn [trace outcome fst snd returns]. apply resolve_ip_no_query.
  - rewrite (test_dns_latency_parse_raises env dns_server domain timeout
               retries e Hp).
    reflexivity.
Qed.

Lemma queries_issued_part_000 (env : Env) (dns_server domain : string)
    (timeout retries : Z) :
  queries_issued
    (trace (Part000.test_dns_latency env dns_server domain timeout retries)) =
  if returns (outcome (Part000.test_dns_latency env dns_server domain timeout retries))
  then 1%nat else 0%nat.
Proof.
  unfold Part000.test_dns_latency, assign_nameservers.
  destruct (split_colon dns_server) as [[ip port] |]; cbn.
  - destruct (check_nameservers env [ip]) as [[] | e]; cbn; [| reflexivity].
    destruct (py_int port) as [p | e]; cbn; [| reflexivity].
    destruct (resolve env _ domain); reflexivity.
  - destruct (check_nameservers env [dns_server]) as [[] | e]; cbn;
      [| reflexivity].
    destruct (resolve env _ domain); reflexivity.
Qed.

(** C1, at the server spec ["8.8.8.8:abc"]: in every environment
    [int("abc")] on line 31 raises [ValueError] before anything else is done
    and the exception leaves [test_dns_latency]; a run of one or more
    attempts stops inside its first attempt, having printed the banner and
    the first progress line only.  The third part is the other way out: an
    exception of the platform look-up that is not a [gaierror] (here the
    encoding error of an empty label) passes the handler of line 39. *)
Theorem exception_leaves_the_attempt :
  (forall env domain timeout retries,
     test_dns_latency env "8.8.8.8:abc" domain timeout retries =
       ([], Raise (mkExn ValueError
                     "invalid literal for int() with base 10: 'abc'"))) /\
  (forall env_at domain count timeout,
     1 <= count ->
     main env_at (mkArgs "8.8.8.8:abc" domain count timeout) =
       ([EvPrint Banner; EvPrint (Text "第1次测试...")],
        Raise (mkExn ValueError
                 "invalid literal for int() with base 10: 'abc'"))) /\
  test_dns_latency env_bad_label "dns..example" "baidu.com" 5 1 =
    ([EvGetHostByName "dns..example"],
     Raise (mkExn (OtherException "UnicodeError")
              "encoding with 'idna' codec failed (UnicodeError: label empty or too long)")).
Proof.
  split; [| split].
  - intros. apply test_dns_latency_parse_raises. reflexivity.
  - intros env_at domain count timeout Hc.
    unfold main, main_with, loop. cbn [Runner.count Runner.dns].
    destruct (Z.to_nat count) as [| n] eqn:Hn; [lia |].
    cbn [attempts]. unfold attempt.
    rewrite test_dns_latency_parse_raises
      with (e := mkExn ValueError "invalid literal for int() with base 10: 'abc'")
      by reflexivity.
    reflexivity.
  - reflexivity.
Qed.

(** On a machine with a resolver configuration, the attempt returns an
    outcome where the three unguarded steps do not raise: the port segment
    parses (line 31), the platform look-up returns or fails with a
    [gaierror] (lines 38-39), and the setter of [nameservers] accepts the
    resolved address (line 55). *)
Lemma attempt_returns_when_guarded (env : Env)
    (dns_server domain server_part : string) (port timeout retries : Z) :
  parse_server_spec dns_server = Ok (server_part, port) ->
  (forall e, gethostbyname env server_part = Raise e -> is_gaierror e = true) ->
  (forall ip,
     outcome (resolve_ip env server_part timeout) = Ok ip ->
     check_nameservers env [ip] = Ok tt) ->
  returns (outcome (test_dns_latency env dns_server domain timeout retries))
    = true.
Proof.
  intros Hp Hg Hc.
  assert (Hr : exists ip, outcome (resolve_ip env server_part timeout) = Ok ip).
  { destruct (gethostbyname env server_part) as [ip | e] eqn:H1.
    - rewrite (resolve_ip_first_tier _ _ _ timeout H1). cbn. eauto.
    - rewrite (resolve_ip_after_gaierror _ _ timeout _ H1 (Hg e eq_refl)).
      cbn [outcome snd]. eauto. }
  destruct Hr as [ip Hr].
  destruct (test_dns_latency_run env dns_server domain server_part ip port
              timeout retries Hp Hr (Hc ip Hr)) as (port_open & _ & ->).
  reflexivity.
Qed.

Lemma attempt_returns_when_guarded_witness :
  returns (outcome (test_dns_latency env_reachable "dns.example:5353"
                      "baidu.com" 5 1)) = true.
Proof.
  apply (attempt_returns_when_guarded env_reachable "dns.example:5353"
           "baidu.com" "dns.example" 5353 5 1).
  - reflexivity.
  - intros e H. discriminate H.
  - intros ip H. injection H as <-. reflexivity.
Defined.

(** C4.  For a server spec that parses and whose host part fails the
    platform look-up, the probe does not proceed against the literal
    target.  After a name-lookup failure ([gaierror]) and a failure of the
    look-up through the system's resolver, the address resolver does return
    the host part itself and the port check is made and reported, but the
    store of line 55 is in no [try]: where the setter of [nameservers]
    refuses the host part, its exception leaves the attempt before any
    query.  After any other exception of the platform look-up there is no
    second look-up and no literal target: line 39 lets the exception leave
    the attempt. *)
Theorem literal_target_leaves_the_attempt (env : Env)
    (dns_server domain server_part : string) (port timeout retries : Z) :
  parse_server_spec dns_server = Ok (server_part, port) ->
  (forall e1 e2 e3 : Exn,
     gethostbyname env server_part = Raise e1 ->
     is_gaierror e1 = true ->
     outcome (resolve_with_system env server_part timeout) = Raise e2 ->
     check_nameservers env [server_part] = Raise e3 ->
     outcome (resolve_ip env server_part timeout) = Ok server_part /\
     exists port_open,
       outcome (test_port_connectivity env server_part port 2) = Ok port_open /\
       test_dns_latency env dns_server domain timeout retries =
         (([EvGetHostByName server_part;
            EvResolveHost (system_resolver env timeout) server_part]
           ++ trace (test_port_connectivity env server_part port 2)
           ++ [EvPrint (Text (server_line server_part port port_open))])%list,
          Raise e3)) /\
  (forall e1 : Exn,
     gethostbyname env server_part = Raise e1 ->
     is_gaierror e1 = false ->
     outcome (resolve_ip env server_part timeout) = Raise e1 /\
     test_dns_latency env dns_server domain timeout retries =
       ([EvGetHostByName server_part], Raise e1)).
Proof.
  intros Hp. split.
  - intros e1 e2 e3 H1 Hg H2 Hc.
    pose proof (resolve_ip_after_gaierror env server_part timeout e1 H1 Hg)
      as Hr.
    rewrite H2 in Hr.
    split; [rewrite Hr; reflexivity |].
    destruct (test_dns_latency_store_raises env dns_server domain server_part
                server_part port timeout retries e3 Hp) as (port_open & Hb & E);
      [rewrite Hr; reflexivity | exact Hc |].
    exists port_open. split; [exact Hb |].
    rewrite E, Hr. reflexivity.
  - intros e1 H1 Hg.
    pose proof (resolve_ip_other_exception env server_part timeout e1 H1 Hg)
      as Hr.
    split; [rewrite Hr; reflexivity |].
    rewrite (test_dns_latency_resolution_raises env dns_server domain
               server_part port timeout retries e1 Hp);
      rewrite Hr; reflexivity.
Qed.

Lemma literal_target_leaves_the_attempt_witness :
  parse_server_spec "some-hostname-that-fails-all-resolution.invalid" =
    Ok ("some-hostname-that-fails-all-resolution.invalid", 53) /\
  outcome (resolve_ip env_unreachable
             "some-hostname-that-fails-all-resolution.invalid" 5) =
    Ok "some-hostname-that-fails-all-resolution.invalid" /\
  outcome (test_port_connectivity env_unreachable
             "some-hostname-that-fails-all-resolution.invalid" 53 2) =
    Ok false /\
  outcome (test_dns_latency env_unreachable
             "some-hostname-that-fails-all-resolution.invalid" "baidu.com" 5 1) =
    Raise (mkExn ValueError
             "nameserver some-hostname-that-fails-all-resolution.invalid is not an IP address or valid https URL") /\
  test_dns_latency env_bad_label "dns..example" "baidu.com" 5 1 =
    ([EvGetHostByName "dns..example"],
     Raise (mkExn (OtherException "UnicodeError")
              "encoding with 'idna' codec failed (UnicodeError: label empty or too long)")).
Proof.
  destruct (literal_target_leaves_the_attempt env_unreachable
              "some-hostname-that-fails-all-resolution.invalid" "baidu.com"
              "some-hostname-that-fails-all-resolution.invalid" 53 5 1 eq_refl)
    as [Hliteral _].
  destruct (Hliteral
              (mkExn GaiError "[Errno -2] Name or service not known")
              (mkExn (OtherException "LifetimeTimeout")
                 "The resolution lifetime expired")
              (mkExn ValueError
                 "nameserver some-hostname-that-fails-all-resolution.invalid is not an IP address or valid https URL")
              eq_refl eq_refl eq_refl eq_refl)
    as (Hip & port_open & Hopen & Hrun).
  destruct (literal_target_leaves_the_attempt env_bad_label
              "dns..example" "baidu.com" "dns..example" 53 5 1 eq_refl)
    as [_ Hother].
  destruct (Hother
              (mkExn (OtherException "UnicodeError")
                 "encoding with 'idna' codec failed (UnicodeError: label empty or too long)")
              eq_refl eq_refl) as [_ Hbad].
  split; [reflexivity |]. split; [exact Hip |].
  split; [reflexivity |]. split; [rewrite Hrun; reflexivity | exact Hbad].
Defined.

(** C8, as stated, at the server spec ["8.8.8.8:abc"]: the call issues no
    query at all, in both variants and whatever [retries] is. *)
Lemma no_query_when_port_unparseable :
  queries_issued
    (trace (Probe.test_dns_latency env_reachable "8.8.8.8:abc" "baidu.com" 5 1))
    = 0%nat /\
  queries_issued
    (trace (Probe.test_dns_latency env_reachable "8.8.8.8:abc" "baidu.com" 5 3))
    = 0%nat /\
  queries_issued
    (trace (Part000.test_dns_latency env_reachable "8.8.8.8:abc" "baidu.com" 5 1))
    = 0%nat.
Proof. repeat split; reflexivity. Qed.

(** C8, amended.  [retries] is not used: for any two values the call gives
    the same events and the same result, in [test_dns_latency] of both
    source files; a call issues at most one query to the server under test
    and exactly one whenever it returns an outcome, whatever [retries]
    is. *)
Theorem retries_is_unused (env : Env) (dns_server domain : string)
    (timeout r1 r2 : Z) :
  Probe.test_dns_latency env dns_server domain timeout r1 =
    Probe.test_dns_latency env dns_server domain timeout r2 /\
  Part000.test_dns_latency env dns_server domain timeout r1 =
    Part000.test_dns_latency env dns_server domain timeout r2 /\
  (queries_issued
     (trace (Probe.test_dns_latency env dns_server domain timeout r1)) <= 1)%nat /\
  (queries_issued
     (trace (Part000.test_dns_latency env dns_server domain timeout r1)) <= 1)%nat /\
  (returns (outcome (Probe.test_dns_latency env dns_server domain timeout r1))
     = true ->
   queries_issued
     (trace (Probe.test_dns_latency env dns_server domain timeout r1)) = 1%nat) /\
  (returns (outcome (Part000.test_dns_latency env dns_server domain timeout r1))
     = true ->
   queries_issued
     (trace (Part000.test_dns_latency env dns_server domain timeout r1)) = 1%nat).
Proof.
  split; [reflexivity |]. split; [reflexivity |].
  rewrite queries_issued_probe, queries_issued_part_000.
  repeat split.
  - destruct (returns _); lia.
  - destruct (returns _); lia.
  - intros ->. reflexivity.
  - intros ->. reflexivity.
Qed.

Lemma retries_is_unused_witness :
  Probe.test_dns_latency env_reachable "8.8.8.8:53" "baidu.com" 5 1 =
    Probe.test_dns_latency env_reachable "8.8.8.8:53" "baidu.com" 5 7 /\
  queries_issued
    (trace (Probe.test_dns_latency env_reachable "8.8.8.8:53" "baidu.com" 5 1))
    = 1%nat.
Proof.
  pose proof (retries_is_unused env_reachable "8.8.8.8:53" "baidu.com" 5 1 7)
    as (E & _ & _ & _ & H & _).
  split; [exact E | apply H; reflexivity].
Defined.

End AttemptClaims.

(** ** The diagnostic of a failed attempt *)

Section Diagnostic.
Import Probe Spec Samples.

Lemma prefix_app (a b : string) : prefix a (a ++ b) = true.
Proof.
  induction a as [| c a IH]; [destruct b; reflexivity |].
  cbn. destruct (ascii_dec c c); [exact IH | contradiction].
Qed.

Lemma prefix_app_l (c x y : string) :
  prefix c x = true -> prefix c (x ++ y) = true.
Proof.
  revert x. induction c as [| a c IH]; intros x H;
    [destruct (x ++ y); reflexivity |].
  destruct x as [| b x]; [discriminate |].
  cbn in *. destruct (ascii_dec a b); [apply IH; exact H | discriminate].
Qed.

Lemma str_in_unfold (c s : string) :
  str_in c s =
  if prefix c s then true
  else match s with
       | EmptyString => false
       | String _ rest => str_in c rest
       end.
Proof. destruct s; reflexivity. Qed.

Lemma str_in_app_r (c x y : string) :
  str_in c y = true -> str_in c (x ++ y) = true.
Proof.
  intros H. induction x as [| a x IH]; [exact H |].
  rewrite str_in_unfold. cbn [append].
  destruct (prefix c (String a (x ++ y))); [reflexivity | exact IH].
Qed.

Lemma str_in_app_l (c x y : string) :
  str_in c x = true -> str_in c (x ++ y) = true.
Proof.
  induction x as [| a x IH]; intros H.
  - rewrite str_in_unfold in H.
    destruct c; [destruct y; reflexivity | discriminate].
  - rewrite str_in_unfold in H. rewrite str_in_unfold.
    destruct (prefix c (String a x)) eqn:Hp.
    + change (String a x ++ y) with (String a x ++ y).
      rewrite (prefix_app_l _ _ y Hp). reflexivity.
    + cbn [append].
      destruct (prefix c (String a (x ++ y))); [reflexivity |].
      apply IH. exact H.
Qed.

Lemma str_in_head (c y : string) : str_in c (c ++ y) = true.
Proof. rewrite str_in_unfold, prefix_app. reflexivity. Qed.

Lemma str_in_refl (c : string) : str_in c c = true.
Proof.
  rewrite str_in_unfold.
  replace (prefix c c) with true; [reflexivity |].
  induction c as [| a c IH]; [reflexivity |].
  cbn. destruct (ascii_dec a a); [exact IH | contradiction].
Qed.

Lemma str_in_concat (sep c : string) (l : list string) :
  In c l -> str_in c (String.concat sep l) = true.
Proof.
  induction l as [| x l IH]; intros H; [contradiction |].
  destruct l as [| x' l'].
  - destruct H as [-> | []]. apply str_in_refl.
  - change (String.concat sep (x :: x' :: l'))
      with (x ++ sep ++ String.concat sep (x' :: l')).
    destruct H as [-> | H].
    + apply str_in_head.
    + apply str_in_app_r, str_in_app_r, IH, H.
Qed.

Lemma hints_differ : hint_timeout <> hint_refused.
Proof. apply String.eqb_neq. reflexivity. Qed.

Lemma cause_hint_is_not_reachability (c : string) :
  is_cause_hint c -> ~ is_reachability_clause c.
Proof.
  intros [-> | ->] [H | [q H]]; revert H;
    unfold hint_timeout, hint_refused, clause_port_open,
      clause_port_unreachable; cbn; discriminate.
Qed.

Lemma reachability_clause_is_one (port_open : bool) (port : Z) :
  is_reachability_clause (reachability_clause port_open port).
Proof. destruct port_open; [left | right; exists port]; reflexivity. Qed.

(** The clause list: the chosen reachability clause, then at most one
    cause hint. *)
Lemma additional_info_shape (port_open : bool) (port : Z) (error_msg : string) :
  additional_info port_open port error_msg =
    reachability_clause port_open port
    :: (if names_timeout error_msg then [hint_timeout]
        else if names_refusal error_msg then [hint_refused]
        else []).
Proof. unfold additional_info. destruct port_open; reflexivity. Qed.

(** A failed attempt went through the port check and the query; its
    message is built from the verdict and from the query's exception. *)
Lemma failed_attempt_message (env : Env) (dns_server domain : string)
    (timeout retries : Z) (message : string) :
  outcome (test_dns_latency env dns_server domain timeout retries) =
    Ok (Failure message) ->
  exists server_part port ip port_open e,
    parse_server_spec dns_server = Ok (server_part, port) /\
    outcome (resolve_ip env server_part timeout) = Ok ip /\
    outcome (test_port_connectivity env ip port 2) = Ok port_open /\
    resolve env (probe_resolver ip port timeout) domain = Raise e /\
    message = full_error port_open port e.
Proof.
  intros H.
  destruct (parse_server_spec dns_server) as [[server_part port] | e0] eqn:Hp.
  2: { rewrite (test_dns_latency_parse_raises _ _ _ _ _ _ Hp) in H.
       discriminate. }
  destruct (outcome (resolve_ip env server_part timeout)) as [ip | e0] eqn:Hr.
  2: { rewrite (test_dns_latency_resolution_raises _ _ _ _ _ _ _ _ Hp Hr) in H.
       discriminate. }
  destruct (check_nameservers env [ip]) as [[] | e0] eqn:Hc.
  2: { destruct (test_dns_latency_store_raises _ _ domain _ _ _ _ retries _
                   Hp Hr Hc) as (port_open & _ & E).
       rewrite E in H. discriminate. }
  destruct (test_dns_latency_run env dns_server domain server_part ip port
              timeout retries Hp Hr Hc) as (port_open & Hb & E).
  rewrite E in H. cbn [outcome snd] in H.
  destruct (resolve env (probe_resolver ip port timeout) domain)
    as [answers | e] eqn:Hq.
  - discriminate.
  - injection H as <-. exists server_part, port, ip, port_open, e. auto.
Qed.

(** C3, as stated, at a message naming both causes (port open, port 53):
    the message contains "timeout" and "refused", the clause list holds the
    time-out hint only, and the refusal hint occurs nowhere in the
    diagnostic string the attempt returns. *)
Lemma refusal_hint_dropped_after_timeout :
  names_timeout "timeout waiting for reply: connection refused" = true /\
  names_refusal "timeout waiting for reply: connection refused" = true /\
  additional_info true 53 "timeout waiting for reply: connection refused" =
    [clause_port_open; hint_timeout] /\
  outcome (test_dns_latency env_refusing "8.8.8.8" "baidu.com" 5 1) =
    Ok (Failure
          ("OSError: timeout waiting for reply: connection refused" ++ nl
           ++ "可能原因: 端口开放但DNS服务可能未正常工作, 服务器响应缓慢、网络连接问题或防火墙限制")) /\
  str_in hint_refused
    ("OSError: timeout waiting for reply: connection refused" ++ nl
     ++ "可能原因: 端口开放但DNS服务可能未正常工作, 服务器响应缓慢、网络连接问题或防火墙限制")
    = false.
Proof. repeat split; reflexivity. Qed.

(** C3, amended.  The diagnostic of a failed attempt is the exception's
    type name and message followed by the clause list joined with ", ".
    The list starts with the one reachability clause chosen by the verdict
    of the port check, and nothing after it is a reachability clause; it
    holds the time-out hint exactly when the lower-cased message contains
    "timeout", and the refusal hint exactly when the lower-cased message
    contains "refused" and does not contain "timeout".  Every clause of the
    list occurs in the diagnostic string. *)
Theorem diagnostic_clauses (env : Env) (dns_server domain : string)
    (timeout retries : Z) (message : string) :
  outcome (test_dns_latency env dns_server domain timeout retries) =
    Ok (Failure message) ->
  exists ip port port_open e hints,
    outcome (test_port_connectivity env ip port 2) = Ok port_open /\
    resolve env (probe_resolver ip port timeout) domain = Raise e /\
    message =
      type_name (exn_class e) ++ ": " ++ exn_msg e ++ nl ++ "可能原因: "
        ++ String.concat ", " (reachability_clause port_open port :: hints) /\
    is_reachability_clause (reachability_clause port_open port) /\
    (forall h, In h hints -> is_cause_hint h /\ ~ is_reachability_clause h) /\
    (In hint_timeout hints <-> names_timeout (exn_msg e) = true) /\
    (In hint_refused hints <->
       names_refusal (exn_msg e) = true /\ names_timeout (exn_msg e) = false) /\
    (forall c, In c (reachability_clause port_open port :: hints) ->
       str_in c message = true).
Proof.
  intros H.
  destruct (failed_attempt_message _ _ _ _ _ _ H)
    as (server_part & port & ip & port_open & e & _ & _ & Hb & Hq & ->).
  exists ip, port, port_open, e.
  exists (if names_timeout (exn_msg e) then [hint_timeout]
          else if names_refusal (exn_msg e) then [hint_refused] else []).
  split; [exact Hb |]. split; [exact Hq |].
  split.
  { unfold full_error. rewrite additional_info_shape. reflexivity. }
  split; [apply reachability_clause_is_one |].
  split.
  { intros h Hh.
    assert (Hc : is_cause_hint h).
    { destruct (names_timeout (exn_msg e)); [| destruct (names_refusal (exn_msg e))];
        cbn in Hh; try contradiction; destruct Hh as [<- | []];
        [left | right]; reflexivity. }
    split; [exact Hc | apply cause_hint_is_not_reachability, Hc]. }
  split.
  { destruct (names_timeout (exn_msg e)).
    - split; [reflexivity | intros _; left; reflexivity].
    - split; [| discriminate].
      destruct (names_refusal (exn_msg e)); cbn.
      + intros [Hh | []]. symmetry in Hh. destruct (hints_differ Hh).
      + contradiction. }
  split.
  { destruct (names_timeout (exn_msg e)).
    - split.
      + intros [Hh | []]. destruct (hints_differ Hh).
      + intros [_ Hf]. discriminate.
    - destruct (names_refusal (exn_msg e)); cbn.
      + split; [auto | intros _; left; reflexivity].
      + split; [contradiction | intros [Hf _]; discriminate]. }
  intros c Hc. unfold full_error. rewrite additional_info_shape.
  do 5 apply str_in_app_r.
  apply str_in_concat. exact Hc.
Qed.

Lemma diagnostic_clauses_witness :
  exists ip port port_open e hints,
    outcome (test_port_connectivity env_refusing ip port 2) = Ok port_open /\
    resolve env_refusing (probe_resolver ip port 5) "baidu.com" = Raise e /\
    "OSError: timeout waiting for reply: connection refused" ++ nl
      ++ "可能原因: 端口开放但DNS服务可能未正常工作, 服务器响应缓慢、网络连接问题或防火墙限制" =
      type_name (exn_class e) ++ ": " ++ exn_msg e ++ nl ++ "可能原因: "
        ++ String.concat ", " (reachability_clause port_open port :: hints) /\
    is_reachability_clause (reachability_clause port_open port) /\
    (forall h, In h hints -> is_cause_hint h /\ ~ is_reachability_clause h) /\
    (In hint_timeout hints <-> names_timeout (exn_msg e) = true) /\
    (In hint_refused hints <->
       names_refusal (exn_msg e) = true /\ names_timeout (exn_msg e) = false) /\
    (forall c, In c (reachability_clause port_open port :: hints) ->
       str_in c
         ("OSError: timeout waiting for reply: connection refused" ++ nl
          ++ "可能原因: 端口开放但DNS服务可能未正常工作, 服务器响应缓慢、网络连接问题或防火墙限制")
         = true).
Proof.
  apply (diagnostic_clauses env_refusing "8.8.8.8" "baidu.com" 5 1).
  reflexivity.
Defined.

End Diagnostic.

(** ** The run *)

Section Run.
Import Probe Spec Samples Runner.

Variable probe : Z -> M ProbeOutcome.
Variable count : Z.

Lemma attempt_returns (i : Z) (st : LoopState) (o : ProbeOutcome) :
  outcome (probe i) = Ok o ->
  outcome (attempt probe count i st) = Ok (record_outcome st o).
Proof.
  intros H. unfold attempt. cbn.
  destruct (probe i) as [t r]. cbn in H. subst r.
  destruct o as [result | message]; cbn;
    destruct (i <? count - 1); reflexivity.
Qed.

Lemma attempt_raises (i : Z) (st : LoopState) (e : Exn) :
  outcome (probe i) = Raise e ->
  outcome (attempt probe count i st) = Raise e.
Proof.
  intros H. unfold attempt. cbn.
  destruct (probe i) as [t r]. cbn in H. subst r. reflexivity.
Qed.

Lemma attempts_step (n : nat) (i : Z) (st : LoopState) :
  outcome (attempts probe count (S n) i st) =
  match outcome (probe i) with
  | Ok o => outcome (attempts probe count n (i + 1) (record_outcome st o))
  | Raise e => Raise e
  end.
Proof.
  cbn [attempts].
  destruct (outcome (probe i)) as [o | e] eqn:H.
  - pose proof (attempt_returns i st o H) as Ha.
    destruct (attempt probe count i st) as [t r]. cbn in Ha. subst r. cbn.
    destruct (attempts probe count n (i + 1) (record_outcome st o)).
    reflexivity.
  - pose proof (attempt_raises i st e H) as Ha.
    destruct (attempt probe count i st) as [t r]. cbn in Ha. subst r.
    reflexivity.
Qed.

Lemma successes_app (l : list ProbeOutcome) (o : ProbeOutcome) :
  successes (l ++ [o]) = successes l + (if succeeded o then 1 else 0).
Proof.
  unfold successes. rewrite filter_app, length_app. cbn.
  destruct (succeeded o); cbn; lia.
Qed.

Lemma failures_app (l : list ProbeOutcome) (o : ProbeOutcome) :
  failures (l ++ [o]) = failures l + (if succeeded o then 0 else 1).
Proof.
  unfold failures. rewrite filter_app, length_app. cbn.
  destruct (succeeded o); cbn; lia.
Qed.

Lemma latencies_of_app (l : list ProbeOutcome) (o : ProbeOutcome) :
  latencies_of (l ++ [o]) =
  (latencies_of l
   ++ match o with Success result => [result] | Failure _ => [] end)%list.
Proof.
  induction l as [| x l IH].
  - destruct o; reflexivity.
  - destruct x; cbn; rewrite IH; reflexivity.
Qed.

Lemma successes_failures (l : list ProbeOutcome) :
  successes l + failures l = Z.of_nat (List.length l).
Proof.
  induction l as [| o l IH] using rev_ind; [reflexivity |].
  rewrite successes_app, failures_app, length_app. cbn.
  destruct (succeeded o); lia.
Qed.

Lemma latencies_of_length (l : list ProbeOutcome) :
  Z.of_nat (List.length (latencies_of l)) = successes l.
Proof.
  induction l as [| o l IH] using rev_ind; [reflexivity |].
  rewrite successes_app, latencies_of_app, length_app.
  destruct o; cbn; lia.
Qed.

Lemma aggregate_initial : aggregate 0 initial.
Proof. repeat split. Qed.

Lemma aggregate_record (k : Z) (st : LoopState) (o : ProbeOutcome) :
  aggregate k st -> aggregate (k + 1) (record_outcome st o).
Proof.
  intros (Hlen & Hcount & Hlat).
  unfold aggregate.
  destruct o as [result | message]; cbn [record_outcome results success_count
    latency_list]; rewrite successes_app, latencies_of_app, length_app;
    cbn; rewrite Hcount, Hlat; repeat split; try lia.
  rewrite app_nil_r. reflexivity.
Qed.

Lemma attempts_aggregate (n : nat) :
  forall (i k : Z) (st st' : LoopState),
    aggregate k st ->
    outcome (attempts probe count n i st) = Ok st' ->
    aggregate (k + Z.of_nat n) st'.
Proof.
  induction n as [| n IH]; intros i k st st' Hst H.
  - cbn in H. injection H as <-. rewrite Z.add_0_r. exact Hst.
  - rewrite attempts_step in H.
    destruct (outcome (probe i)) as [o | e]; [| discriminate].
    replace (k + Z.of_nat (S n)) with ((k + 1) + Z.of_nat n) by lia.
    apply (IH (i + 1) (k + 1) (record_outcome st o));
      [apply aggregate_record; exact Hst | exact H].
Qed.

(** What [aggregate] gives on the counters *)
Lemma aggregate_counts (k : Z) (st : LoopState) :
  aggregate k st ->
  success_count st + failure_count k st = k /\
  failure_count k st = failures (results st) /\
  0 <= success_count st <= k /\
  Z.of_nat (List.length (latency_list st)) = success_count st /\
  latency_list st = latencies_of (results st).
Proof.
  intros (Hlen & Hcount & Hlat).
  pose proof (successes_failures (results st)) as Hsf.
  pose proof (latencies_of_length (results st)) as Hl.
  unfold failure_count.
  assert (0 <= successes (results st)) by (unfold successes; lia).
  assert (0 <= failures (results st)) by (unfold failures; lia).
  rewrite Hlat, Hcount. repeat split; lia.
Qed.

(** The loop returns when every attempt does. *)
Lemma attempts_complete (n : nat) :
  (forall i, returns (outcome (probe i)) = true) ->
  forall i st, returns (outcome (attempts probe count n i st)) = true.
Proof.
  intros Hp. induction n as [| n IH]; intros i st; [reflexivity |].
  rewrite attempts_step. specialize (Hp i).
  destruct (outcome (probe i)) as [o | e]; [apply IH | discriminate].
Qed.

(** C6.  After any number [k] of iterations of the loop, and so after the
    whole loop of a run with [count >= 0] attempts: the success count plus
    the failure count (the attempts so far minus the successes, as line
    142 prints it) is the number of attempts made, the failure count is the
    number of failed outcomes collected, the success count is at most the
    number of attempts, and the latency list has one entry per success,
    namely the latencies of the successful outcomes in attempt order. *)
Theorem loop_counts :
  0 <= count ->
  (forall (k : nat) (st : LoopState),
     outcome (attempts probe count k 0 initial) = Ok st ->
     success_count st + failure_count (Z.of_nat k) st = Z.of_nat k /\
     failure_count (Z.of_nat k) st = failures (results st) /\
     0 <= success_count st <= Z.of_nat k /\
     Z.of_nat (List.length (latency_list st)) = success_count st /\
     latency_list st = latencies_of (results st)) /\
  (forall st : LoopState,
     outcome (loop probe count) = Ok st ->
     success_count st + (count - success_count st) = count /\
     count - success_count st = failures (results st) /\
     0 <= success_count st <= count /\
     Z.of_nat (List.length (latency_list st)) = success_count st /\
     latency_list st = latencies_of (results st)).
Proof.
  intros Hc.
  assert (Hk : forall (k : nat) st,
             outcome (attempts probe count k 0 initial) = Ok st ->
             aggregate (Z.of_nat k) st).
  { intros k st H.
    apply (attempts_aggregate k 0 0 initial st aggregate_initial H). }
  split.
  - intros k st H. apply aggregate_counts, Hk, H.
  - intros st H. unfold loop in H. apply Hk in H.
    rewrite Z2Nat.id in H by exact Hc.
    apply aggregate_counts in H. exact H.
Qed.

End Run.

Section RunClaims.
Import Probe Spec Samples Runner.

Example run_of_three :
  outcome (loop (fun i => test_dns_latency (env_alternating i) "8.8.8.8"
                            "baidu.com" 5 1) 3) =
  Ok (mkLoop
        [Success ((1 * (12 # 1000) - 0 * (12 # 1000)) * 1000)%Q;
         Failure ("LifetimeTimeout: The resolution lifetime expired" ++ nl
                  ++ "可能原因: 端口53无法连接");
         Success ((1 * (12 # 1000) - 0 * (12 # 1000)) * 1000)%Q]
        2
        [((1 * (12 # 1000) - 0 * (12 # 1000)) * 1000)%Q;
         ((1 * (12 # 1000) - 0 * (12 # 1000)) * 1000)%Q]).
Proof. vm_compute. reflexivity. Qed.

End RunClaims.

Section Summary.
Import Probe Spec Samples Runner.

Lemma loop_counts_witness :
  exists st,
    outcome (loop (fun i => test_dns_latency (env_alternating i) "8.8.8.8"
                              "baidu.com" 5 1) 3) = Ok st /\
    success_count st = 2 /\
    success_count st + (3 - success_count st) = 3 /\
    3 - success_count st = failures (results st) /\
    0 <= success_count st <= 3 /\
    Z.of_nat (List.length (latency_list st)) = success_count st /\
    latency_list st = latencies_of (results st).
Proof.
  eexists. split; [apply run_of_three |]. split; [reflexivity |].
  apply (proj2 (loop_counts
                  (fun i => test_dns_latency (env_alternating i) "8.8.8.8"
                              "baidu.com" 5 1) 3 ltac:(lia))).
  apply run_of_three.
Defined.

Lemma summary_returns (count : Z) (st : LoopState) :
  count <> 0 -> outcome (summary count st) = Ok tt.
Proof.
  intros Hc. unfold summary, true_div.
  destruct (Z.eqb_spec count 0) as [E | _]; [contradiction |].
  destruct (latency_list st); reflexivity.
Qed.

Lemma main_with_returns (probe : Z -> M ProbeOutcome) (args : Args) :
  count args <> 0 ->
  (forall i, returns (outcome (probe i)) = true) ->
  outcome (main_with probe args) = Ok tt.
Proof.
  intros Hc Hp. unfold main_with, loop.
  pose proof (attempts_complete probe (count args)
                (Z.to_nat (count args)) Hp 0 initial) as Hl.
  rewrite !outcome_bind. cbn [print emit outcome snd].
  destruct (outcome (attempts probe (count args) (Z.to_nat (count args)) 0
                       initial)) as [st | e]; [| discriminate].
  apply summary_returns, Hc.
Qed.

(** C10.  The summary divides the success count by the attempt count
    without a guard.  With attempt count 0 the loop makes no attempt and
    leaves the counters at their initial values, the first lines of the
    summary are printed, and the success rate raises [ZeroDivisionError]: the
    run ends with that exception, in [main] of both source files.  With an
    attempt count of 1 or more (any count other than 0) the division
    returns, and the run completes whenever its attempts return. *)
Theorem summary_needs_an_attempt :
  (forall probe args,
     count args = 0 ->
     loop probe (count args) = ([], Ok initial) /\
     main_with probe args =
       (zero_attempt_output,
        Raise (mkExn ZeroDivisionError "division by zero"))) /\
  (forall env_at args,
     count args = 0 ->
     outcome (main env_at args) =
       Raise (mkExn ZeroDivisionError "division by zero") /\
     outcome (main_part_000 env_at args) =
       Raise (mkExn ZeroDivisionError "division by zero")) /\
  (forall a b, b <> 0 -> returns (true_div a b) = true) /\
  (forall probe args,
     1 <= count args ->
     (forall i, returns (outcome (probe i)) = true) ->
     outcome (main_with probe args) = Ok tt).
Proof.
  assert (H0 : forall probe args,
             count args = 0 ->
             main_with probe args =
               (zero_attempt_output,
                Raise (mkExn ZeroDivisionError "division by zero"))).
  { intros probe args Hc. unfold main_with, loop. rewrite Hc. reflexivity. }
  split; [| split; [| split]].
  - intros probe args Hc. split; [| apply H0, Hc].
    unfold loop. rewrite Hc. reflexivity.
  - intros env_at args Hc. unfold main, main_part_000.
    rewrite !H0 by exact Hc. split; reflexivity.
  - intros a b Hb. unfold true_div.
    destruct (Z.eqb_spec b 0); [contradiction | reflexivity].
  - intros probe args Hc Hp. apply main_with_returns; [lia | exact Hp].
Qed.

Lemma summary_needs_an_attempt_witness :
  outcome (main (fun _ => env_reachable) (mkArgs "8.8.8.8" "baidu.com" 0 5)) =
    Raise (mkExn ZeroDivisionError "division by zero") /\
  outcome (main_with
             (fun i => test_dns_latency (env_alternating i) "8.8.8.8"
                         "baidu.com" 5 1)
             (mkArgs "8.8.8.8" "baidu.com" 3 5)) = Ok tt.
Proof.
  destruct summary_needs_an_attempt as (_ & Hzero & _ & Hrun).
  split.
  - apply (Hzero (fun _ => env_reachable) (mkArgs "8.8.8.8" "baidu.com" 0 5)).
    reflexivity.
  - apply (Hrun _ (mkArgs "8.8.8.8" "baidu.com" 3 5)); [cbn; lia |].
    intros i. unfold env_alternating.
    destruct (Z.even i); reflexivity.
Defined.

End Summary.

(** * Further properties of the program *)

(** ** Traces *)

Section Traces.
Import Probe Spec Runner.

Lemma trace_bind {A B : Type} (m : M A) (k : A -> M B) :
  trace (bind m k) =
  (trace m ++ match outcome m with
              | Ok a => trace (k a)
              | Raise _ => []
              end)%list.
Proof.
  destruct m as [t [a | e]]; cbn.
  - destruct (k a); reflexivity.
  - rewrite app_nil_r. reflexivity.
Qed.

Lemma count_events_app (p : Event -> bool) (t1 t2 : list Event) :
  count_events p (t1 ++ t2) = (count_events p t1 + count_events p t2)%nat.
Proof.
  induction t1 as [| ev t1 IH]; [reflexivity |].
  cbn. rewrite IH. lia.
Qed.

Lemma count_queries (t : list Event) :
  count_events is_query t = queries_issued t.
Proof.
  induction t as [| ev t IH]; [reflexivity |].
  destruct ev; cbn; rewrite IH; reflexivity.
Qed.

Lemma count_events_none (p : Event -> bool) (t : list Event) :
  Forall (fun ev => p ev = false) t -> count_events p t = 0%nat.
Proof.
  induction 1 as [| ev t Hev _ IH]; [reflexivity |].
  cbn. rewrite Hev, IH. reflexivity.
Qed.

(** One iteration of the loop around an attempt that returns: the progress
    line, the attempt, the result line, and the pause unless the attempt is
    the last one. *)
Lemma attempt_trace (probe : Z -> M ProbeOutcome) (count i : Z)
    (st : LoopState) (o : ProbeOutcome) :
  outcome (probe i) = Ok o ->
  trace (attempt probe count i st) =
    (progress_line i :: trace (probe i)
     ++ result_line o :: (if i <? count - 1 then [EvSleep] else []))%list.
Proof.
  intros H. unfold attempt, progress_line.
  destruct (probe i) as [t r]. cbn in H. subst r.
  destruct o as [result | message]; cbn;
    destruct (i <? count - 1); cbn; rewrite ?app_nil_r; reflexivity.
Qed.

(** An iteration whose attempt raises stops there. *)
Lemma attempt_trace_raises (probe : Z -> M ProbeOutcome) (count i : Z)
    (st : LoopState) (e : Exn) :
  outcome (probe i) = Raise e ->
  trace (attempt probe count i st) = progress_line i :: trace (probe i).
Proof.
  intros H. unfold attempt, progress_line.
  destruct (probe i) as [t r]. cbn in H. subst r. reflexivity.
Qed.

End Traces.

(** ** What one attempt does and does not do *)

Section AttemptEvents.
Import Probe Spec Samples Runner.

#[local] Arguments resolve_ip : simpl never.
#[local] Arguments test_port_connectivity : simpl never.

Lemma resolve_ip_events (env : Env) (server_part domain : string)
    (timeout : Z) :
  Forall (attempt_event timeout domain)
    (trace (resolve_ip env server_part timeout)).
Proof.
  destruct (gethostbyname env server_part) as [ip | e] eqn:H.
  - rewrite (resolve_ip_first_tier _ _ _ _ H). repeat constructor.
  - destruct (is_gaierror e) eqn:Hg.
    + rewrite (resolve_ip_after_gaierror _ _ _ _ H Hg). repeat constructor.
    + rewrite (resolve_ip_other_exception _ _ _ _ H Hg). repeat constructor.
Qed.

Lemma test_port_connectivity_events (env : Env) (ip domain : string)
    (port timeout : Z) :
  Forall (attempt_event timeout domain)
    (trace (test_port_connectivity env ip port 2)).
Proof.
  pose proof (test_port_connectivity_cases env ip port 2) as H.
  cbv zeta in H.
  destruct H
    as [(e & _ & ->) | [(e & _ & _ & ->) | [(e & _ & _ & _ & ->)
       | [(r & e & _ & _ & _ & _ & ->) | (r & _ & _ & _ & _ & ->)]]]];
    repeat constructor.
Qed.

Lemma probe_events (env : Env) (dns_server domain : string)
    (timeout retries : Z) :
  Forall (attempt_event timeout domain)
    (trace (Probe.test_dns_latency env dns_server domain timeout retries)).
Proof.
  destruct (parse_server_spec dns_server) as [[server_part port] | e] eqn:Hp.
  - destruct (outcome (resolve_ip env server_part timeout))
      as [ip | e] eqn:Hr.
    + destruct (check_nameservers env [ip]) as [[] | e] eqn:Hc.
      * destruct (test_dns_latency_run env dns_server domain server_part ip
                    port timeout retries Hp Hr Hc) as (port_open & _ & ->).
        cbn [trace fst].
        apply Forall_app. split; [apply resolve_ip_events |].
        apply Forall_app. split; [apply test_port_connectivity_events |].
        repeat constructor. exists ip. reflexivity.
      * destruct (test_dns_latency_store_raises env dns_server domain
                    server_part ip port timeout retries e Hp Hr Hc)
          as (port_open & _ & ->).
        cbn [trace fst].
        apply Forall_app. split; [apply resolve_ip_events |].
        apply Forall_app. split; [apply test_port_connectivity_events |].
        repeat constructor.
    + rewrite (test_dns_latency_resolution_raises env dns_server domain
                 server_part port timeout retries e Hp Hr).
      apply resolve_ip_events.
  - rewrite (test_dns_latency_parse_raises env dns_server domain timeout
               retries e Hp).
    constructor.
Qed.

Lemma part_000_events (env : Env) (dns_server domain : string)
    (timeout retries : Z) :
  Forall (attempt_event timeout domain)
    (trace (Part000.test_dns_latency env dns_server domain timeout retries)).
Proof.
  unfold Part000.test_dns_latency, assign_nameservers.
  destruct (split_colon dns_server) as [[ip port] |]; cbn.
  - destruct (check_nameservers env [ip]) as [[] | e]; cbn; [| constructor].
    destruct (py_int port) as [p | e]; cbn; [| constructor].
    destruct (resolve env _ domain); cbn; repeat constructor;
      exists ip; reflexivity.
  - destruct (check_nameservers env [dns_server]) as [[] | e]; cbn;
      [| constructor].
    destruct (resolve env _ domain); cbn; repeat constructor;
      exists dns_server; reflexivity.
Qed.

(** Every event of an attempt is one of: the platform look-up, the
    look-up through the system's resolver configured with the caller's
    [timeout], the socket calls of the port check with the fixed time-out
    of 2 seconds, a printed text line, or a query for [domain] sent to a
    single name server with time-out and lifetime both set to the caller's
    [timeout].  In particular an attempt never pauses, and the time-out of
    the port check does not depend on the caller's. *)
Theorem attempt_events (env : Env) (dns_server domain : string)
    (timeout retries : Z) :
  Forall (attempt_event timeout domain)
    (trace (Probe.test_dns_latency env dns_server domain timeout retries)) /\
  Forall (attempt_event timeout domain)
    (trace (Part000.test_dns_latency env dns_server domain timeout retries)).
Proof.
  split; [apply probe_events | apply part_000_events].
Qed.

Lemma attempt_event_quiet (timeout : Z) (domain : string) (t : list Event) :
  Forall (attempt_event timeout domain) t -> sleeps t = 0%nat.
Proof.
  intros H. apply count_events_none.
  apply Forall_impl with (2 := H).
  intros ev Hev. destruct ev; try reflexivity. contradiction.
Qed.

(** The platform look-up is made exactly once in every attempt that gets
    past the parse of the server spec. *)
Lemma resolve_ip_lookups (env : Env) (server_part : string) (timeout : Z) :
  lookups (trace (resolve_ip env server_part timeout)) = 1%nat.
Proof.
  destruct (gethostbyname env server_part) as [ip | e] eqn:H.
  - rewrite (resolve_ip_first_tier _ _ _ _ H). reflexivity.
  - destruct (is_gaierror e) eqn:Hg.
    + rewrite (resolve_ip_after_gaierror _ _ _ _ H Hg). reflexivity.
    + rewrite (resolve_ip_other_exception _ _ _ _ H Hg). reflexivity.
Qed.

Lemma test_port_connectivity_lookups (env : Env) (ip : string)
    (port timeout : Z) :
  lookups (trace (test_port_connectivity env ip port timeout)) = 0%nat.
Proof.
  pose proof (test_port_connectivity_cases env ip port timeout) as H.
  cbv zeta in H.
  destruct H
    as [(e & _ & ->) | [(e & _ & _ & ->) | [(e & _ & _ & _ & ->)
       | [(r & e & _ & _ & _ & _ & ->) | (r & _ & _ & _ & _ & ->)]]]];
    reflexivity.
Qed.

Lemma returned_attempt_lookups (env : Env) (dns_server domain : string)
    (timeout retries : Z) :
  returns (outcome (Probe.test_dns_latency env dns_server domain timeout
                      retries)) = true ->
  lookups (trace (Probe.test_dns_latency env dns_server domain timeout
                    retries)) = 1%nat.
Proof.
  intros H.
  destruct (parse_server_spec dns_server) as [[server_part port] | e] eqn:Hp.
  - destruct (outcome (resolve_ip env server_part timeout)) as [ip | e] eqn:Hr.
    + destruct (check_nameservers env [ip]) as [[] | e] eqn:Hc.
      2: { destruct (test_dns_latency_store_raises env dns_server domain
                       server_part ip port timeout retries e Hp Hr Hc)
             as (port_open & _ & E).
           rewrite E in H. discriminate. }
      destruct (test_dns_latency_run env dns_server domain server_part ip
                  port timeout retries Hp Hr Hc) as (port_open & _ & E).
      rewrite E. cbn [trace fst]. unfold lookups.
      rewrite !count_events_app.
      fold (lookups (trace (resolve_ip env server_part timeout))).
      fold (lookups (trace (test_port_connectivity env ip port 2))).
      rewrite resolve_ip_lookups, test_port_connectivity_lookups.
      reflexivity.
    + rewrite (test_dns_latency_resolution_raises env dns_server domain
                 server_part port timeout retries e Hp Hr) in H.
      discriminate.
  - rewrite (test_dns_latency_parse_raises env dns_server domain timeout
               retries e Hp) in H.
    discriminate.
Qed.

End AttemptEvents.

(** ** What a run does between and around its attempts *)

Section RunEvents.
Import Probe Spec Samples Runner.

Variable probe : Z -> M ProbeOutcome.
Variable count : Z.

Lemma attempts_trace_step (n : nat) (i : Z) (st : LoopState) :
  trace (attempts probe count (S n) i st) =
  (trace (attempt probe count i st)
   ++ match outcome (attempt probe count i st) with
      | Ok st' => trace (attempts probe count n (i + 1) st')
      | Raise _ => []
      end)%list.
Proof. cbn [attempts]. apply trace_bind. Qed.

(** The pauses of a completed loop whose attempts do not pause
    themselves: one after every attempt but the last. *)
Lemma attempts_sleeps (n : nat) :
  (forall j, sleeps (trace (probe j)) = 0%nat) ->
  forall (i : Z) (st st' : LoopState),
    i + Z.of_nat n = count ->
    outcome (attempts probe count n i st) = Ok st' ->
    sleeps (trace (attempts probe count n i st)) = pred n.
Proof.
  intros Hq. induction n as [| n IH]; intros i st st' Hi H; [reflexivity |].
  rewrite attempts_trace_step. rewrite attempts_step in H.
  destruct (outcome (probe i)) as [o | e] eqn:Ho; [| discriminate].
  rewrite (attempt_returns probe count i st o Ho).
  rewrite (attempt_trace probe count i st o Ho).
  unfold sleeps in *. rewrite count_events_app. cbn [count_events app].
  rewrite count_events_app, Hq.
  rewrite (IH (i + 1) (record_outcome st o) st') by (lia || exact H).
  replace (is_sleep (progress_line i)) with false by reflexivity.
  cbn [count_events].
  replace (is_sleep (result_line o)) with false by (destruct o; reflexivity).
  destruct (Z.ltb_spec i (count - 1)); cbn; lia.
Qed.

(** Counting, in a completed loop, a kind of event that every returning
    attempt produces once and the loop's own lines never. *)
Lemma attempts_count_once (p : Event -> bool) (n : nat) :
  (forall j, returns (outcome (probe j)) = true ->
             count_events p (trace (probe j)) = 1%nat) ->
  (forall i, p (progress_line i) = false) ->
  (forall o, p (result_line o) = false) ->
  p EvSleep = false ->
  forall (i : Z) (st st' : LoopState),
    outcome (attempts probe count n i st) = Ok st' ->
    count_events p (trace (attempts probe count n i st)) = n.
Proof.
  intros H1 Hprog Hres Hsleep.
  induction n as [| n IH]; intros i st st' H; [reflexivity |].
  rewrite attempts_trace_step. rewrite attempts_step in H.
  destruct (outcome (probe i)) as [o | e] eqn:Ho; [| discriminate].
  rewrite (attempt_returns probe count i st o Ho).
  rewrite (attempt_trace probe count i st o Ho).
  rewrite count_events_app. cbn [count_events app].
  rewrite count_events_app, H1 by (rewrite Ho; reflexivity).
  rewrite (IH (i + 1) (record_outcome st o) st' H).
  rewrite Hprog. cbn [count_events]. rewrite Hres.
  destruct (i <? count - 1); cbn; rewrite ?Hsleep; lia.
Qed.

Lemma attempts_count_none (p : Event -> bool) (n : nat) :
  (forall j, count_events p (trace (probe j)) = 0%nat) ->
  (forall i, p (progress_line i) = false) ->
  (forall o, p (result_line o) = false) ->
  p EvSleep = false ->
  forall (i : Z) (st : LoopState),
    count_events p (trace (attempts probe count n i st)) = 0%nat.
Proof.
  intros H0 Hprog Hres Hsleep.
  induction n as [| n IH]; intros i st; [reflexivity |].
  rewrite attempts_trace_step, count_events_app.
  destruct (outcome (probe i)) as [o | e] eqn:Ho.
  - rewrite (attempt_returns probe count i st o Ho).
    rewrite (attempt_trace probe count i st o Ho).
    cbn [count_events app]. rewrite count_events_app, H0, IH, Hprog.
    cbn [count_events]. rewrite Hres.
    destruct (i <? count - 1); cbn; rewrite ?Hsleep; lia.
  - rewrite (attempt_raises probe count i st e Ho).
    rewrite (attempt_trace_raises probe count i st e Ho).
    cbn [count_events]. rewrite H0, Hprog. reflexivity.
Qed.

(** The summary only prints. *)
Lemma summary_prints_only (p : Event -> bool) (st : LoopState) :
  (forall l, p (EvPrint l) = false) ->
  count_events p (trace (summary count st)) = 0%nat.
Proof.
  intros Hp. unfold summary, true_div.
  destruct (count =? 0); cbn; rewrite ?Hp; [reflexivity |].
  destruct (latency_list st); cbn; rewrite ?Hp; reflexivity.
Qed.

(** The events of a whole run: the banner, the loop, and the summary when
    the loop returns. *)
Lemma main_with_trace (args : Args) :
  Runner.count args = count ->
  trace (main_with probe args) =
  (EvPrint Banner :: trace (loop probe count)
   ++ match outcome (loop probe count) with
      | Ok st => trace (summary count st)
      | Raise _ => []
      end)%list.
Proof.
  intros <-. unfold main_with. rewrite trace_bind. cbn [print emit trace fst
    outcome snd app]. rewrite trace_bind. reflexivity.
Qed.

Lemma main_with_outcome (args : Args) :
  Runner.count args = count ->
  outcome (main_with probe args) =
  match outcome (loop probe count) with
  | Ok st => outcome (summary count st)
  | Raise e => Raise e
  end.
Proof.
  intros <-. unfold main_with. rewrite !outcome_bind. reflexivity.
Qed.

End RunEvents.

Section RunCounts.
Import Probe Spec Samples Runner.

Lemma part_000_lookups (env : Env) (dns_server domain : string)
    (timeout retries : Z) :
  lookups (trace (Part000.test_dns_latency env dns_server domain timeout
                    retries)) = 0%nat.
Proof.
  unfold Part000.test_dns_latency, assign_nameservers.
  destruct (split_colon dns_server) as [[ip port] |]; cbn.
  - destruct (check_nameservers env [ip]) as [[] | e]; cbn; [| reflexivity].
    destruct (py_int port) as [p | e]; cbn; [| reflexivity].
    destruct (resolve env _ domain); reflexivity.
  - destruct (check_nameservers env [dns_server]) as [[] | e]; cbn;
      [| reflexivity].
    destruct (resolve env _ domain); reflexivity.
Qed.

(** A run that returns went through its loop. *)
Lemma main_with_returned (probe : Z -> M ProbeOutcome) (args : Args) :
  outcome (main_with probe args) = Ok tt ->
  exists st,
    outcome (loop probe (count args)) = Ok st /\
    trace (main_with probe args) =
      (EvPrint Banner :: trace (loop probe (count args))
       ++ trace (summary (count args) st))%list.
Proof.
  intros H.
  rewrite (main_with_outcome probe (count args) args eq_refl) in H.
  rewrite (main_with_trace probe (count args) args eq_refl).
  destruct (outcome (loop probe (count args))) as [st | e]; [| discriminate].
  exists st. split; reflexivity.
Qed.

Lemma main_with_sleeps (probe : Z -> M ProbeOutcome) (args : Args) :
  (forall j, sleeps (trace (probe j)) = 0%nat) ->
  outcome (main_with probe args) = Ok tt ->
  sleeps (trace (main_with probe args)) = Z.to_nat (count args - 1).
Proof.
  intros Hq H.
  destruct (main_with_returned probe args H) as (st & Hl & ->).
  unfold sleeps. cbn [count_events is_sleep].
  rewrite count_events_app, summary_prints_only by reflexivity.
  unfold loop in *.
  destruct (Z.le_gt_cases 0 (count args)) as [Hc | Hc].
  - pose proof (attempts_sleeps probe (count args) (Z.to_nat (count args)) Hq
                  0 initial st) as Hs.
    unfold sleeps in Hs. rewrite Hs by (lia || exact Hl).
    lia.
  - replace (Z.to_nat (count args)) with 0%nat by lia.
    cbn. lia.
Qed.

Lemma main_with_count_once (p : Event -> bool)
    (probe : Z -> M ProbeOutcome) (args : Args) :
  (forall j, returns (outcome (probe j)) = true ->
             count_events p (trace (probe j)) = 1%nat) ->
  (forall l, p (EvPrint l) = false) ->
  p EvSleep = false ->
  outcome (main_with probe args) = Ok tt ->
  count_events p (trace (main_with probe args)) = Z.to_nat (count args).
Proof.
  intros H1 Hp Hs H.
  destruct (main_with_returned probe args H) as (st & Hl & ->).
  cbn [count_events]. rewrite Hp.
  rewrite count_events_app, summary_prints_only by exact Hp.
  unfold loop in *.
  rewrite (attempts_count_once probe (count args) p (Z.to_nat (count args))
             H1 (fun i => Hp _)) with (st' := st); [lia | | exact Hs | exact Hl].
  intros o. destruct o; apply Hp.
Qed.

(** A completed run pauses once after every attempt except the last:
    [count - 1] times for [count] attempts, in [main] of both source
    files. *)
Theorem run_pauses_between_attempts (env_at : Z -> Env) (args : Args) :
  (outcome (main env_at args) = Ok tt ->
   sleeps (trace (main env_at args)) = Z.to_nat (count args - 1)) /\
  (outcome (main_part_000 env_at args) = Ok tt ->
   sleeps (trace (main_part_000 env_at args)) = Z.to_nat (count args - 1)).
Proof.
  split; intros H.
  - apply main_with_sleeps; [| exact H].
    intros j.
    apply (attempt_event_quiet (timeout args) (domain args)), probe_events.
  - apply main_with_sleeps; [| exact H].
    intros j.
    apply (attempt_event_quiet (timeout args) (domain args)), part_000_events.
Qed.

Lemma run_pauses_between_attempts_witness :
  sleeps (trace (main env_alternating (mkArgs "8.8.8.8" "baidu.com" 3 5)))
    = 2%nat.
Proof.
  apply (proj1 (run_pauses_between_attempts env_alternating
                  (mkArgs "8.8.8.8" "baidu.com" 3 5))).
  vm_compute. reflexivity.
Defined.

(** A completed run of [count] attempts has sent exactly [count] queries to
    the server under test, one per attempt, and in [dns-delay-testing.py]
    has looked the server's host part up [count] times as well: the server
    spec is resolved afresh in every attempt.  The earlier variant never
    looks the host part up. *)
Theorem run_queries_and_lookups (env_at : Z -> Env) (args : Args) :
  (outcome (main env_at args) = Ok tt ->
   queries_issued (trace (main env_at args)) = Z.to_nat (count args) /\
   lookups (trace (main env_at args)) = Z.to_nat (count args)) /\
  (outcome (main_part_000 env_at args) = Ok tt ->
   queries_issued (trace (main_part_000 env_at args)) = Z.to_nat (count args) /\
   lookups (trace (main_part_000 env_at args)) = 0%nat).
Proof.
  split; intros H.
  - split.
    + rewrite <- count_queries.
      apply main_with_count_once; try reflexivity; [| exact H].
      intros j Hj. rewrite count_queries, queries_issued_probe, Hj.
      reflexivity.
    + apply main_with_count_once; try reflexivity; [| exact H].
      intros j Hj. apply returned_attempt_lookups, Hj.
  - split.
    + rewrite <- count_queries.
      apply main_with_count_once; try reflexivity; [| exact H].
      intros j Hj. rewrite count_queries, queries_issued_part_000, Hj.
      reflexivity.
    + destruct (main_with_returned _ args H) as (st & Hl & E).
      unfold main_part_000. rewrite E. unfold lookups.
      cbn [count_events is_lookup].
      rewrite count_events_app, summary_prints_only by reflexivity.
      unfold loop.
      rewrite attempts_count_none; try reflexivity.
      * intros j. apply part_000_lookups.
      * intros o. destruct o; reflexivity.
Qed.

Lemma run_queries_and_lookups_witness :
  queries_issued
    (trace (main env_alternating (mkArgs "8.8.8.8" "baidu.com" 3 5))) = 3%nat /\
  lookups
    (trace (main env_alternating (mkArgs "8.8.8.8" "baidu.com" 3 5))) = 3%nat.
Proof.
  apply (proj1 (run_queries_and_lookups env_alternating
                  (mkArgs "8.8.8.8" "baidu.com" 3 5))).
  vm_compute. reflexivity.
Defined.

End RunCounts.

(** ** A run stops at the first attempt that raises *)

Section RunAbort.
Import Probe Spec Samples Runner.

Lemma attempts_abort (probe : Z -> M ProbeOutcome) (count : Z) (e : Exn)
    (n : nat) :
  forall (i j : Z) (st : LoopState),
    0 <= j < Z.of_nat n ->
    (forall k, 0 <= k < j -> returns (outcome (probe (i + k))) = true) ->
    outcome (probe (i + j)) = Raise e ->
    outcome (attempts probe count n i st) = Raise e.
Proof.
  induction n as [| n IH]; intros i j st Hj Hret Hraise; [lia |].
  rewrite attempts_step.
  destruct (Z.eq_dec j 0) as [-> | Hnz].
  - rewrite Z.add_0_r in Hraise. rewrite Hraise. reflexivity.
  - pose proof (Hret 0 ltac:(lia)) as H0. rewrite Z.add_0_r in H0.
    destruct (outcome (probe i)) as [o | e0]; [| discriminate].
    apply (IH (i + 1) (j - 1)); [lia | |].
    + intros k Hk. replace (i + 1 + k) with (i + (k + 1)) by lia.
      apply Hret. lia.
    + replace (i + 1 + (j - 1)) with (i + j) by lia. exact Hraise.
Qed.

(** The attempts after one that raises are never made: replacing them
    changes nothing. *)
Lemma attempts_ignore_later (probe probe' : Z -> M ProbeOutcome) (count : Z)
    (j : Z) (n : nat) :
  returns (outcome (probe j)) = false ->
  (forall k, k <= j -> probe' k = probe k) ->
  forall (i : Z) (st : LoopState),
    i <= j ->
    attempts probe' count n i st = attempts probe count n i st.
Proof.
  intros Hraise Hsame.
  induction n as [| n IH]; intros i st Hi; [reflexivity |].
  cbn [attempts].
  assert (Ha : attempt probe' count i st = attempt probe count i st).
  { unfold attempt. rewrite (Hsame i Hi). reflexivity. }
  rewrite Ha.
  destruct (Z.eq_dec i j) as [-> | Hne].
  - destruct (outcome (probe j)) as [o | e] eqn:Ho; [discriminate |].
    pose proof (attempt_raises probe count j st e Ho) as Hr.
    destruct (attempt probe count j st) as [t r]. cbn in Hr. subst r.
    reflexivity.
  - destruct (attempt probe count i st) as [t [st' | e]]; [| reflexivity].
    cbn. rewrite (IH (i + 1) st') by lia. reflexivity.
Qed.

(** When attempt [j] of a run raises and the attempts before it return,
    the run ends with that exception: nothing of the summary is printed,
    and the later attempts are not made (replacing them by anything leaves
    the run as it is). *)
Theorem run_stops_at_first_exception (probe probe' : Z -> M ProbeOutcome)
    (args : Args) (j : Z) (e : Exn) :
  0 <= j < count args ->
  (forall k, 0 <= k < j -> returns (outcome (probe k)) = true) ->
  outcome (probe j) = Raise e ->
  (forall k, k <= j -> probe' k = probe k) ->
  outcome (main_with probe args) = Raise e /\
  trace (main_with probe args) =
    EvPrint Banner :: trace (loop probe (count args)) /\
  main_with probe' args = main_with probe args.
Proof.
  intros Hj Hret Hraise Hsame.
  assert (Hl : outcome (loop probe (count args)) = Raise e).
  { unfold loop.
    apply (attempts_abort probe (count args) e (Z.to_nat (count args)) 0 j);
      [lia | exact Hret | exact Hraise]. }
  split; [| split].
  - rewrite (main_with_outcome probe (count args) args eq_refl), Hl.
    reflexivity.
  - rewrite (main_with_trace probe (count args) args eq_refl), Hl.
    rewrite app_nil_r. reflexivity.
  - unfold main_with, loop.
    rewrite (attempts_ignore_later probe probe' (count args) j); try lia;
      [reflexivity | rewrite Hraise; reflexivity | exact Hsame].
Qed.

Lemma run_stops_at_first_exception_witness :
  outcome (main (env_rejecting_from 1)
             (mkArgs "dns..example" "baidu.com" 3 5)) =
    Raise (mkExn (OtherException "UnicodeError")
             "encoding with 'idna' codec failed (UnicodeError: label empty or too long)") /\
  queries_issued
    (trace (main (env_rejecting_from 1)
              (mkArgs "dns..example" "baidu.com" 3 5))) = 1%nat.
Proof.
  pose proof (run_stops_at_first_exception
                (probe_of (env_rejecting_from 1)
                   (mkArgs "dns..example" "baidu.com" 3 5))
                (probe_of (env_rejecting_from 1)
                   (mkArgs "dns..example" "baidu.com" 3 5))
                (mkArgs "dns..example" "baidu.com" 3 5) 1
                (mkExn (OtherException "UnicodeError")
                   "encoding with 'idna' codec failed (UnicodeError: label empty or too long)"))
    as H.
  destruct H as (Hout & _ & _).
  - cbn. lia.
  - intros k Hk. replace k with 0 by lia. reflexivity.
  - reflexivity.
  - reflexivity.
  - split; [exact Hout | reflexivity].
Defined.

End RunAbort.

(** ** The summary *)

Section SummaryFacts.
Import Probe Spec Samples Runner.

Lemma summary_trace (count : Z) (st : LoopState) (rate : Q) :
  true_div (success_count st) count = Ok rate ->
  trace (summary count st) =
    (summary_head count st rate
     ++ match latency_list st with
        | [] => []
        | first :: rest =>
            [EvPrint (MinLine (fold_left qmin rest first));
             EvPrint (MaxLine (fold_left qmax rest first));
             EvPrint (MeanLine
                        (qsum (latency_list st)
                         / inject_Z (Z.of_nat (List.length (latency_list st)))))]
        end
     ++ [EvPrint EndLine])%list.
Proof.
  intros H. unfold summary, summary_head. rewrite H.
  destruct (latency_list st); reflexivity.
Qed.

Lemma qmin_cases (a b : Q) :
  (qmin a b = a \/ qmin a b = b) /\ (qmin a b <= a)%Q /\ (qmin a b <= b)%Q.
Proof.
  unfold qmin. destruct (Qle_bool b a) eqn:E.
  - apply Qle_bool_iff in E. repeat split; auto. apply Qle_refl.
  - assert (~ (b <= a)%Q) by (rewrite <- Qle_bool_iff; congruence).
    repeat split; auto; [apply Qle_refl | lra].
Qed.

Lemma qmax_cases (a b : Q) :
  (qmax a b = a \/ qmax a b = b) /\ (a <= qmax a b)%Q /\ (b <= qmax a b)%Q.
Proof.
  unfold qmax. destruct (Qle_bool a b) eqn:E.
  - apply Qle_bool_iff in E. repeat split; auto. apply Qle_refl.
  - assert (~ (a <= b)%Q) by (rewrite <- Qle_bool_iff; congruence).
    repeat split; auto; [apply Qle_refl | lra].
Qed.

(** [min] of a non-empty list is one of its elements and below all of
    them. *)
Lemma fold_qmin_spec (rest : list Q) :
  forall first : Q,
    In (fold_left qmin rest first) (first :: rest) /\
    (forall x, In x (first :: rest) -> (fold_left qmin rest first <= x)%Q).
Proof.
  induction rest as [| y rest IH]; intros first; cbn [fold_left].
  - split; [left; reflexivity |].
    intros x [<- | []]. apply Qle_refl.
  - destruct (IH (qmin first y)) as [Hin Hle].
    destruct (qmin_cases first y) as (Hc & Ha & Hb).
    split.
    + destruct Hin as [Hin | Hin]; [| right; right; exact Hin].
      rewrite <- Hin. destruct Hc as [-> | ->]; [left | right; left];
        reflexivity.
    + intros x [<- | [<- | Hx]].
      * apply Qle_trans with (2 := Ha). apply Hle. left. reflexivity.
      * apply Qle_trans with (2 := Hb). apply Hle. left. reflexivity.
      * apply Hle. right. exact Hx.
Qed.

Lemma fold_qmax_spec (rest : list Q) :
  forall first : Q,
    In (fold_left qmax rest first) (first :: rest) /\
    (forall x, In x (first :: rest) -> (x <= fold_left qmax rest first)%Q).
Proof.
  induction rest as [| y rest IH]; intros first; cbn [fold_left].
  - split; [left; reflexivity |].
    intros x [<- | []]. apply Qle_refl.
  - destruct (IH (qmax first y)) as [Hin Hle].
    destruct (qmax_cases first y) as (Hc & Ha & Hb).
    split.
    + destruct Hin as [Hin | Hin]; [| right; right; exact Hin].
      rewrite <- Hin. destruct Hc as [-> | ->]; [left | right; left];
        reflexivity.
    + intros x [<- | [<- | Hx]].
      * apply Qle_trans with (1 := Ha). apply Hle. left. reflexivity.
      * apply Qle_trans with (1 := Hb). apply Hle. left. reflexivity.
      * apply Hle. right. exact Hx.
Qed.

End SummaryFacts.

Section SummaryClaims.
Import Probe Spec Samples Runner.

Lemma loop_aggregate (probe : Z -> M ProbeOutcome) (count : Z)
    (st : LoopState) :
  outcome (loop probe count) = Ok st ->
  aggregate (Z.of_nat (Z.to_nat count)) st.
Proof.
  intros H.
  apply (attempts_aggregate probe count (Z.to_nat count) 0 0 initial st
           (aggregate_initial) H).
Qed.

(** After a completed loop of one or more attempts the success rate the
    summary prints is a percentage: between 0 and 100, 100 exactly when no
    attempt failed and 0 exactly when none succeeded. *)
Theorem success_rate_is_a_percentage (probe : Z -> M ProbeOutcome)
    (count : Z) (st : LoopState) :
  1 <= count ->
  outcome (loop probe count) = Ok st ->
  exists rate,
    true_div (success_count st) count = Ok rate /\
    In (EvPrint (RateLine (rate * 100)%Q)) (trace (summary count st)) /\
    (0 <= rate * 100 <= 100)%Q /\
    ((rate * 100 == 100)%Q <-> failures (results st) = 0) /\
    ((rate * 100 == 0)%Q <-> successes (results st) = 0).
Proof.
  intros Hc H. apply loop_aggregate in H.
  rewrite Z2Nat.id in H by lia.
  pose proof H as (_ & Hs & _).
  apply aggregate_counts in H.
  destruct H as (_ & Hf & Hb & _). unfold failure_count in Hf.
  rewrite <- Hf, <- Hs. clear Hf Hs.
  assert (Ht : true_div (success_count st) count =
               Ok (inject_Z (success_count st) / inject_Z count)%Q).
  { unfold true_div. destruct (Z.eqb_spec count 0); [lia | reflexivity]. }
  exists (inject_Z (success_count st) / inject_Z count)%Q.
  split; [exact Ht |].
  split.
  { rewrite (summary_trace count st _ Ht). unfold summary_head.
    cbn. tauto. }
  clear Ht. revert Hb. generalize (success_count st). intros s Hb.
  assert (Hpos : (0 < inject_Z count)%Q).
  { replace 0%Q with (inject_Z 0) by reflexivity. rewrite <- Zlt_Qlt. lia. }
  assert (Hnz : ~ (inject_Z count == 0)%Q).
  { intros E. rewrite E in Hpos. apply (Qlt_irrefl 0 Hpos). }
  assert (Hs0 : (0 <= inject_Z s)%Q).
  { replace 0%Q with (inject_Z 0) by reflexivity. rewrite <- Zle_Qle. lia. }
  assert (Hsc : (inject_Z s <= inject_Z count)%Q).
  { rewrite <- Zle_Qle. lia. }
  pose proof (Qmult_div_r (inject_Z s) (inject_Z count) Hnz) as Hk.
  assert (Hlo : (0 <= inject_Z s / inject_Z count)%Q).
  { apply Qle_shift_div_l; [exact Hpos | lra]. }
  assert (Hhi : (inject_Z s / inject_Z count <= 1)%Q).
  { apply Qle_shift_div_r; [exact Hpos | lra]. }
  remember (inject_Z s / inject_Z count)%Q as rate eqn:Er.
  split; [lra |].
  split.
  - split.
    + intros E. assert (E1 : (rate == 1)%Q) by lra.
      rewrite E1, Qmult_1_r in Hk.
      pose proof (proj1 (inject_Z_injective count s) Hk). lia.
    + intros E. assert (Es : s = count) by lia.
      assert (E1 : (rate == 1)%Q); [| lra].
      rewrite Er, Es. unfold Qdiv. apply Qmult_inv_r. exact Hnz.
  - split.
    + intros E. assert (E1 : (rate == 0)%Q) by lra.
      rewrite E1, Qmult_0_r in Hk. symmetry in Hk.
      change 0%Q with (inject_Z 0) in Hk.
      exact (proj1 (inject_Z_injective s 0) Hk).
    + intros E. rewrite Er, E. change (inject_Z 0) with 0%Q.
      unfold Qdiv. lra.
Qed.

Lemma success_rate_is_a_percentage_witness :
  exists rate,
    true_div 2 3 = Ok rate /\
    (0 <= rate * 100 <= 100)%Q.
Proof.
  destruct (success_rate_is_a_percentage
              (probe_of env_alternating (mkArgs "8.8.8.8" "baidu.com" 3 5)) 3
              (mkLoop
                 [Success ((1 * (12 # 1000) - 0 * (12 # 1000)) * 1000)%Q;
                  Failure ("LifetimeTimeout: The resolution lifetime expired"
                           ++ nl ++ "可能原因: 端口53无法连接");
                  Success ((1 * (12 # 1000) - 0 * (12 # 1000)) * 1000)%Q]
                 2
                 [((1 * (12 # 1000) - 0 * (12 # 1000)) * 1000)%Q;
                  ((1 * (12 # 1000) - 0 * (12 # 1000)) * 1000)%Q]))
    as (rate & Ht & _ & Hb & _).
  - lia.
  - apply run_of_three.
  - exists rate. split; [exact Ht | exact Hb].
Defined.

End SummaryClaims.

Section Statistics.
Import Probe Spec Samples Runner.

(** After a completed loop with a count other than 0, the summary prints
    its head and, before the closing line, either nothing (no attempt
    succeeded) or three lines, the minimum, the maximum and the mean of
    the collected latencies: the minimum and the maximum are collected
    latencies that bound all of them. *)
Theorem summary_statistics (probe : Z -> M ProbeOutcome) (count : Z)
    (st : LoopState) :
  count <> 0 ->
  outcome (loop probe count) = Ok st ->
  exists rate stats,
    trace (summary count st) =
      (summary_head count st rate ++ stats ++ [EvPrint EndLine])%list /\
    (success_count st = 0 -> stats = []) /\
    (0 < success_count st ->
     exists lowest highest mean,
       stats = [EvPrint (MinLine lowest); EvPrint (MaxLine highest);
                EvPrint (MeanLine mean)] /\
       In lowest (latency_list st) /\
       In highest (latency_list st) /\
       (forall x, In x (latency_list st) -> (lowest <= x <= highest)%Q)).
Proof.
  intros Hc H. apply loop_aggregate, aggregate_counts in H.
  destruct H as (_ & _ & _ & Hlen & _).
  assert (Ht : true_div (success_count st) count =
               Ok (inject_Z (success_count st) / inject_Z count)%Q).
  { unfold true_div. destruct (Z.eqb_spec count 0); [contradiction | reflexivity]. }
  eexists. eexists. split; [apply (summary_trace count st _ Ht) |].
  destruct (latency_list st) as [| first rest] eqn:El.
  - split; [reflexivity |]. cbn in Hlen. lia.
  - split; [intros E; rewrite E in Hlen; discriminate |].
    intros _.
    destruct (fold_qmin_spec rest first) as [Hmin_in Hmin].
    destruct (fold_qmax_spec rest first) as [Hmax_in Hmax].
    do 3 eexists. split; [reflexivity |].
    split; [exact Hmin_in |]. split; [exact Hmax_in |].
    intros x Hx; split; [apply Hmin | apply Hmax]; exact Hx.
Qed.

Lemma summary_statistics_witness :
  exists rate stats,
    trace (summary 3
             (mkLoop
                [Success ((1 * (12 # 1000) - 0 * (12 # 1000)) * 1000)%Q;
                 Failure ("LifetimeTimeout: The resolution lifetime expired"
                          ++ nl ++ "可能原因: 端口53无法连接");
                 Success ((1 * (12 # 1000) - 0 * (12 # 1000)) * 1000)%Q]
                2
                [((1 * (12 # 1000) - 0 * (12 # 1000)) * 1000)%Q;
                 ((1 * (12 # 1000) - 0 * (12 # 1000)) * 1000)%Q])) =
      (summary_head 3
         (mkLoop
            [Success ((1 * (12 # 1000) - 0 * (12 # 1000)) * 1000)%Q;
             Failure ("LifetimeTimeout: The resolution lifetime expired"
                      ++ nl ++ "可能原因: 端口53无法连接");
             Success ((1 * (12 # 1000) - 0 * (12 # 1000)) * 1000)%Q]
            2
            [((1 * (12 # 1000) - 0 * (12 # 1000)) * 1000)%Q;
             ((1 * (12 # 1000) - 0 * (12 # 1000)) * 1000)%Q]) rate
       ++ stats ++ [EvPrint EndLine])%list /\
    List.length stats = 3%nat.
Proof.
  destruct (summary_statistics
              (probe_of env_alternating (mkArgs "8.8.8.8" "baidu.com" 3 5)) 3
              (mkLoop
                 [Success ((1 * (12 # 1000) - 0 * (12 # 1000)) * 1000)%Q;
                  Failure ("LifetimeTimeout: The resolution lifetime expired"
                           ++ nl ++ "可能原因: 端口53无法连接");
                  Success ((1 * (12 # 1000) - 0 * (12 # 1000)) * 1000)%Q]
                 2
                 [((1 * (12 # 1000) - 0 * (12 # 1000)) * 1000)%Q;
                  ((1 * (12 # 1000) - 0 * (12 # 1000)) * 1000)%Q]))
    as (rate & stats & Ht & _ & Hs).
  - discriminate.
  - apply run_of_three.
  - exists rate, stats. split; [exact Ht |].
    destruct Hs as (lowest & highest & mean & -> & _); [reflexivity |].
    reflexivity.
Defined.

(** The attempt count is not validated.  With a negative count the loop
    makes no attempt and the run completes: the summary reports the
    negative count as the number of attempts and as the number of
    failures, and no latency statistics. *)
Theorem negative_count_makes_no_attempt (probe : Z -> M ProbeOutcome)
    (args : Args) :
  count args < 0 ->
  main_with probe args =
    ([EvPrint Banner;
      EvPrint (Text rule);
      EvPrint (Text "=== 测试结果汇总 ===");
      EvPrint (Text ("总测试次数: " ++ str_of_Z (count args)));
      EvPrint (Text "成功次数: 0");
      EvPrint (Text ("失败次数: " ++ str_of_Z (count args)));
      EvPrint (RateLine (inject_Z 0 / inject_Z (count args) * 100)%Q);
      EvPrint EndLine],
     Ok tt).
Proof.
  intros Hc. unfold main_with, loop.
  replace (Z.to_nat (count args)) with 0%nat by lia.
  cbn [attempts]. unfold summary, true_div.
  destruct (Z.eqb_spec (count args) 0) as [E | _]; [lia |].
  cbn. rewrite Z.sub_0_r. reflexivity.
Qed.

Lemma negative_count_makes_no_attempt_witness :
  outcome (main env_alternating (mkArgs "8.8.8.8" "baidu.com" (-3) 5)) = Ok tt /\
  In (EvPrint (Text "失败次数: -3"))
    (trace (main env_alternating (mkArgs "8.8.8.8" "baidu.com" (-3) 5))).
Proof.
  unfold main.
  rewrite (negative_count_makes_no_attempt _
             (mkArgs "8.8.8.8" "baidu.com" (-3) 5)) by (cbn; lia).
  split; [reflexivity |]. cbn. tauto.
Defined.

End Statistics.

(** ** Server specs that cannot be parsed *)

Section UnparseableSpecs.
Import Probe Spec Samples Runner.

(** A server spec with a second colon anywhere after the first (an IPv6
    address, with or without brackets and port) and a server spec that ends
    in its colon cannot be used: [int] rejects the port segment with a
    [ValueError].  In [dns-delay-testing.py] that exception leaves
    [test_dns_latency] before anything else is done.  In the earlier
    variant the host part is stored first: the exception that leaves the
    attempt is the one of the setter of [nameservers] where it refuses the
    host part, and the [ValueError] of [int] otherwise.  No query is sent
    either way. *)
Theorem second_colon_or_empty_port_raises (host rest : string) :
  str_in ":" host = false ->
  str_in ":" rest = true \/ rest = "" ->
  exists msg,
    py_int rest = Raise (mkExn ValueError msg) /\
    parse_server_spec (host ++ ":" ++ rest) = Raise (mkExn ValueError msg) /\
    forall env domain timeout retries,
      Probe.test_dns_latency env (host ++ ":" ++ rest) domain timeout retries =
        ([], Raise (mkExn ValueError msg)) /\
      Part000.test_dns_latency env (host ++ ":" ++ rest) domain timeout retries =
        ([], Raise match check_nameservers env [host] with
                   | Ok _ => mkExn ValueError msg
                   | Raise e => e
                   end).
Proof.
  intros Hhost Hrest.
  assert (Hint : exists msg, py_int rest = Raise (mkExn ValueError msg)).
  { destruct Hrest as [H | ->].
    - apply py_int_junk, colon_is_junk, H.
    - eexists. reflexivity. }
  destruct Hint as [msg Hint]. exists msg.
  assert (Hp : parse_server_spec (host ++ ":" ++ rest) =
               Raise (mkExn ValueError msg)).
  { unfold parse_server_spec.
    rewrite (split_colon_app host rest Hhost), Hint. reflexivity. }
  split; [exact Hint |]. split; [exact Hp |].
  intros env domain timeout retries. split.
  - apply test_dns_latency_parse_raises, Hp.
  - unfold Part000.test_dns_latency, assign_nameservers.
    rewrite (split_colon_app host rest Hhost). cbn.
    destruct (check_nameservers env [host]) as [[] | e]; cbn;
      [rewrite Hint |]; reflexivity.
Qed.

Lemma second_colon_or_empty_port_raises_witness :
  (exists msg,
     py_int "db8::1]:53" = Raise (mkExn ValueError msg) /\
     Probe.test_dns_latency env_reachable ("[2001" ++ ":" ++ "db8::1]:53")
       "baidu.com" 5 1 = ([], Raise (mkExn ValueError msg)) /\
     Part000.test_dns_latency env_reachable ("[2001" ++ ":" ++ "db8::1]:53")
       "baidu.com" 5 1 =
       ([], Raise (mkExn ValueError
                     "nameserver [2001 is not an IP address or valid https URL"))) /\
  (exists msg,
     py_int "" = Raise (mkExn ValueError msg) /\
     Probe.test_dns_latency env_reachable ("8.8.8.8" ++ ":" ++ "")
       "baidu.com" 5 1 = ([], Raise (mkExn ValueError msg)) /\
     Part000.test_dns_latency env_reachable ("8.8.8.8" ++ ":" ++ "")
       "baidu.com" 5 1 = ([], Raise (mkExn ValueError msg))).
Proof.
  split.
  - destruct (second_colon_or_empty_port_raises "[2001" "db8::1]:53")
      as (msg & Hint & _ & Hrun); [reflexivity | left; reflexivity |].
    exists msg. split; [exact Hint |].
    destruct (Hrun env_reachable "baidu.com" 5 1) as [Hmain Hpart].
    split; [exact Hmain | exact Hpart].
  - destruct (second_colon_or_empty_port_raises "8.8.8.8" "")
      as (msg & Hint & _ & Hrun); [reflexivity | right; reflexivity |].
    exists msg. split; [exact Hint |].
    destruct (Hrun env_reachable "baidu.com" 5 1) as [Hmain Hpart].
    split; [exact Hmain | exact Hpart].
Defined.

End UnparseableSpecs.

(** ** The tiers of the address resolution *)

Section Tiers.
Import Probe Spec Samples Runner.

(** The address resolver, case by case.  When the platform look-up
    returns, its answer is the address and the system's resolver is not
    asked.  When it raises a [gaierror], the system's resolver is asked
    once, with the caller's time-out: the first answer is the address, and
    with an exception or an empty answer the host part itself is.  Any
    other exception of the platform look-up leaves the resolver without the
    second look-up. *)
Theorem resolution_tiers (env : Env) (server_part : string) (timeout : Z) :
  match gethostbyname env server_part with
  | Ok ip =>
      resolve_ip env server_part timeout =
        ([EvGetHostByName server_part], Ok ip)
  | Raise e =>
      if is_gaierror e then
        resolve_ip env server_part timeout =
          ([EvGetHostByName server_part;
            EvResolveHost (system_resolver env timeout) server_part],
           Ok match resolve env (system_resolver env timeout) server_part with
              | Ok (first :: _) => first
              | Ok [] => server_part
              | Raise _ => server_part
              end)
      else
        resolve_ip env server_part timeout =
          ([EvGetHostByName server_part], Raise e)
  end.
Proof.
  destruct (gethostbyname env server_part) as [ip | e] eqn:H.
  - apply resolve_ip_first_tier, H.
  - destruct (is_gaierror e) eqn:Hg.
    + rewrite (resolve_ip_after_gaierror _ _ _ _ H Hg).
      unfold resolve_with_system, system_resolver.
      destruct (resolve env _ server_part) as [[| a answers] | e'];
        reflexivity.
    + apply resolve_ip_other_exception; assumption.
Qed.

End Tiers.

(** ** The two variants of [test_dns_latency] *)

Section Variants.
Import Probe Spec Samples Runner.

#[local] Arguments resolve_ip : simpl never.
#[local] Arguments test_port_connectivity : simpl never.

Lemma part_000_run (env : Env) (dns_server domain server_part : string)
    (port timeout retries : Z) :
  parse_server_spec dns_server = Ok (server_part, port) ->
  check_nameservers env [server_part] = Ok tt ->
  Part000.test_dns_latency env dns_server domain timeout retries =
    ([EvQuery (probe_resolver server_part port timeout) domain],
     Ok match resolve env (probe_resolver server_part port timeout) domain with
        | Ok _ => Success ((perf_counter env 1 - perf_counter env 0) * 1000)%Q
        | Raise e => Failure (exn_msg e)
        end).
Proof.
  unfold parse_server_spec, Part000.test_dns_latency, assign_nameservers,
    probe_resolver.
  destruct (split_colon dns_server) as [[ip port_part] |].
  - destruct (py_int port_part) as [p | e] eqn:Hint; [| discriminate].
    intros [= <- <-] Hc. cbn. rewrite Hc. cbn.
    destruct (resolve env _ domain); reflexivity.
  - intros [= <- <-] Hc. cbn. rewrite Hc. cbn.
    destruct (resolve env _ domain); reflexivity.
Qed.

Lemma no_query_in_trace (t : list Event) (r : Resolver) (d : string) :
  queries_issued t = 0%nat -> ~ In (EvQuery r d) t.
Proof.
  induction t as [| ev t IH]; intros Hq Hin; [contradiction |].
  destruct Hin as [-> | Hin]; [discriminate |].
  apply IH; [| exact Hin]. destruct ev; cbn in Hq; congruence.
Qed.

Lemma raw_message_in_full_error (port_open : bool) (port : Z) (e : Exn) :
  str_in (exn_msg e) (full_error port_open port e) = true.
Proof.
  unfold full_error. do 2 apply str_in_app_r. apply str_in_head.
Qed.

(** For a server spec that parses and whose host part the platform look-up
    returns unchanged (an IPv4 address), [test_dns_latency] of
    [dns-delay-testing.py] sends the same single query as the earlier
    variant and agrees with it on the outcome: the same success with the
    same latency, or a failure whose diagnostic contains the earlier
    variant's message. *)
Theorem variants_agree_on_addresses (env : Env)
    (dns_server domain server_part : string) (port timeout retries : Z) :
  parse_server_spec dns_server = Ok (server_part, port) ->
  gethostbyname env server_part = Ok server_part ->
  (forall r d,
     In (EvQuery r d)
       (trace (Probe.test_dns_latency env dns_server domain timeout retries))
     <->
     In (EvQuery r d)
       (trace (Part000.test_dns_latency env dns_server domain timeout retries)))
  /\
  match outcome (Part000.test_dns_latency env dns_server domain timeout retries)
  with
  | Ok (Success latency) =>
      outcome (Probe.test_dns_latency env dns_server domain timeout retries) =
        Ok (Success latency)
  | Ok (Failure message) =>
      exists diagnostic,
        outcome (Probe.test_dns_latency env dns_server domain timeout retries) =
          Ok (Failure diagnostic) /\
        str_in message diagnostic = true
  | Raise _ => False
  end.
Proof.
  intros Hp Hg.
  pose proof (resolve_ip_first_tier env server_part server_part timeout Hg)
    as Hr.
  pose proof (gethostbyname_accepted env _ _ Hg) as Hc.
  destruct (test_dns_latency_run env dns_server domain server_part server_part
              port timeout retries Hp) as (port_open & _ & E);
    [rewrite Hr; reflexivity | exact Hc |].
  rewrite E, Hr, (part_000_run env dns_server domain server_part port timeout
                    retries Hp Hc).
  cbn [trace outcome fst snd]. split.
  - intros r d. split.
    + intros Hin. apply in_app_or in Hin. destruct Hin as [Hin | Hin].
      * destruct Hin as [Hin | []]. discriminate.
      * apply in_app_or in Hin. destruct Hin as [Hin | Hin].
        -- exfalso.
           apply (no_query_in_trace _ r d
                    (test_port_connectivity_no_query env server_part port 2)
                    Hin).
        -- destruct Hin as [Hin | [Hin | []]]; [discriminate |].
           left. exact Hin.
    + intros Hin. apply in_or_app. right. apply in_or_app. right.
      destruct Hin as [Hin | []]. right. left. exact Hin.
  - destruct (resolve env (probe_resolver server_part port timeout) domain)
      as [answers | e].
    + reflexivity.
    + eexists. split; [reflexivity | apply raw_message_in_full_error].
Qed.

Lemma variants_agree_on_addresses_witness :
  outcome (Probe.test_dns_latency env_reachable "8.8.8.8:53" "baidu.com" 5 1) =
    outcome (Part000.test_dns_latency env_reachable "8.8.8.8:53" "baidu.com" 5 1).
Proof.
  pose proof (variants_agree_on_addresses env_reachable "8.8.8.8:53"
                "baidu.com" "8.8.8.8" 53 5 1 eq_refl eq_refl) as [_ H].
  exact H.
Defined.

End Variants.

(** ** What the loop records *)

Section Recording.
Import Probe Spec Samples Runner.

Lemma results_record_outcome (st : LoopState) (o : ProbeOutcome) :
  results (record_outcome st o) = (results st ++ [o])%list.
Proof. destruct o; reflexivity. Qed.

Lemma attempts_results (probe : Z -> M ProbeOutcome) (count : Z) (n : nat) :
  forall (i : Z) (st st' : LoopState),
    outcome (attempts probe count n i st) = Ok st' ->
    exists os,
      results st' = (results st ++ os)%list /\
      List.length os = n /\
      (forall (k : nat) (o : ProbeOutcome),
         nth_error os k = Some o ->
         outcome (probe (i + Z.of_nat k)) = Ok o).
Proof.
  induction n as [| n IH]; intros i st st' H.
  - cbn in H. injection H as <-. exists [].
    rewrite app_nil_r. repeat split. intros [| k] o Hk; discriminate.
  - rewrite attempts_step in H.
    destruct (outcome (probe i)) as [o | e] eqn:Ho; [| discriminate].
    destruct (IH (i + 1) (record_outcome st o) st' H) as (os & Hres & Hlen & Hnth).
    exists (o :: os).
    rewrite Hres, results_record_outcome, <- app_assoc.
    split; [reflexivity |]. split; [cbn; lia |].
    intros [| k] o' Hk.
    + injection Hk as <-. rewrite Z.add_0_r. exact Ho.
    + replace (i + Z.of_nat (S k)) with (i + 1 + Z.of_nat k) by lia.
      apply Hnth. exact Hk.
Qed.

(** After a completed loop, [results] holds one entry per attempt, and the
    entry at position [k] is what attempt [k] returned. *)
Theorem results_hold_every_outcome (probe : Z -> M ProbeOutcome) (count : Z)
    (st : LoopState) :
  outcome (loop probe count) = Ok st ->
  List.length (results st) = Z.to_nat count /\
  (forall (k : nat) (o : ProbeOutcome),
     nth_error (results st) k = Some o ->
     outcome (probe (Z.of_nat k)) = Ok o).
Proof.
  intros H. unfold loop in H.
  destruct (attempts_results probe count (Z.to_nat count) 0 initial st H)
    as (os & Hres & Hlen & Hnth).
  cbn [results initial app] in Hres. rewrite Hres.
  split; [exact Hlen |].
  intros k o Hk. apply (Hnth k o Hk).
Qed.

Lemma results_hold_every_outcome_witness :
  outcome (test_dns_latency (env_alternating 1) "8.8.8.8" "baidu.com" 5 1) =
    Ok (Failure ("LifetimeTimeout: The resolution lifetime expired" ++ nl
                 ++ "可能原因: 端口53无法连接")).
Proof.
  apply (proj2 (results_hold_every_outcome
                  (fun i => test_dns_latency (env_alternating i) "8.8.8.8"
                              "baidu.com" 5 1) 3 _ run_of_three) 1%nat).
  reflexivity.
Defined.

End Recording.
